(** * hng13-stage1-devops: the Flask status application (src/app.py)

    A shallow embedding of the application: the template of the home page,
    the four view functions, the two registered error handlers and the
    start-up block, over the part of the libraries that the application calls
    ([datetime] formatting, [int] and [str.lower], UTF-8, MarkupSafe escaping,
    Jinja interpolation, the URL router with its redirections, Flask's
    dispatch and error handling, the development server), followed by the
    properties of the route contract. *)

From Stdlib Require Import ZArith Ascii String List Bool Lia.
From stdpp Require Import base option gmap strings list pretty.

Local Open Scope Z_scope.

(** ** Characters and strings

    A Python [str] that ends up in a response is modelled by the bytes of its
    UTF-8 encoding, as a [string]. *)

Definition chr (n : nat) : ascii := ascii_of_nat n.
Definition ord (c : ascii) : nat := nat_of_ascii c.

(** The double quote and the line feed, which a literal cannot hold. *)
Definition dq : string := String (chr 34) EmptyString.
Definition nl : string := String (chr 10) EmptyString.

Definition join_lines (l : list string) : string := String.concat nl l.

Fixpoint starts_with (p s : string) : bool :=
  match p, s with
  | EmptyString, _ => true
  | String a p', String b s' => if Ascii.eqb a b then starts_with p' s' else false
  | String _ _, EmptyString => false
  end.

(** [needle in hay], Python's substring test. *)
Fixpoint find_in (needle hay : string) : bool :=
  starts_with needle hay ||
  match hay with
  | EmptyString => false
  | String _ hay' => find_in needle hay'
  end.

Definition contains (needle hay : string) : Prop :=
  exists pre post, hay = pre +:+ needle +:+ post.

Definition all_chars (P : ascii -> bool) (s : string) : bool :=
  forallb P (list_ascii_of_string s).

Definition in_range (lo hi : nat) (c : ascii) : bool :=
  (lo <=? ord c)%nat && (ord c <=? hi)%nat.

(** *** UTF-8

    [os.getenv] and [socket.gethostname] decode the bytes they are given as
    UTF-8 with the "surrogateescape" error handler (the file system encoding
    of the interpreter is taken to be UTF-8, its default): a byte that is not
    part of a well-formed sequence becomes a lone surrogate, and the [str]
    can be encoded as UTF-8 again exactly when there is no such byte. The
    decoder is the automaton of the Unicode standard (table 3-7): the state
    tells which bytes may follow. *)

Inductive utf8_state :=
  | Boundary              (* between two characters *)
  | Tail (n : nat)        (* [S n] continuation bytes 80..BF to come *)
  | After_E0              (* A0..BF, then one continuation byte *)
  | After_ED              (* 80..9F, then one continuation byte *)
  | After_F0              (* 90..BF, then two continuation bytes *)
  | After_F4.             (* 80..8F, then two continuation bytes *)

Definition utf8_tail (n : nat) : utf8_state :=
  match n with
  | O => Boundary
  | S n' => Tail n'
  end.

Definition utf8_step (st : utf8_state) (b : ascii) : option utf8_state :=
  match st with
  | Boundary =>
      if in_range 0 127 b then Some Boundary
      else if in_range 194 223 b then Some (Tail 0)
      else if in_range 224 224 b then Some After_E0
      else if in_range 237 237 b then Some After_ED
      else if in_range 225 239 b then Some (Tail 1)
      else if in_range 240 240 b then Some After_F0
      else if in_range 241 243 b then Some (Tail 2)
      else if in_range 244 244 b then Some After_F4
      else None
  | Tail n => if in_range 128 191 b then Some (utf8_tail n) else None
  | After_E0 => if in_range 160 191 b then Some (Tail 0) else None
  | After_ED => if in_range 128 159 b then Some (Tail 0) else None
  | After_F0 => if in_range 144 191 b then Some (Tail 1) else None
  | After_F4 => if in_range 128 143 b then Some (Tail 1) else None
  end.

Fixpoint utf8_run (st : utf8_state) (s : string) : option utf8_state :=
  match s with
  | EmptyString => Some st
  | String b s' =>
      match utf8_step st b with
      | Some st' => utf8_run st' s'
      | None => None
      end
  end.

(** The bytes are well-formed UTF-8: the [str] decoded from them has no lone
    surrogate, and [str.encode('utf-8')] succeeds on it. *)
Definition is_utf8 (s : string) : bool :=
  match utf8_run Boundary s with
  | Some Boundary => true
  | _ => false
  end.

(** ** Decimal fields

    [datetime.isoformat] prints each of its fields with a fixed width
    ("%04d", "%02d", "%06d"); the fields of a [datetime] are within the
    ranges for which that width is exact. *)

Definition digit_char (d : Z) : ascii := chr (48 + Z.to_nat d).

Definition is_digit (c : ascii) : bool :=
  (48 <=? ord c)%nat && (ord c <=? 57)%nat.

Definition digit_val (c : ascii) : Z := Z.of_nat (ord c) - 48.

(** [zpad k n]: the [k] decimal digits of [n], most significant first. *)
Fixpoint zpad (k : nat) (n : Z) : string :=
  match k with
  | O => EmptyString
  | S k' => String (digit_char (n / 10 ^ Z.of_nat k')) (zpad k' (n mod 10 ^ Z.of_nat k'))
  end.

(** Reads exactly [k] digits from the front of [s]. *)
Fixpoint read_digits (k : nat) (acc : Z) (s : string) : option (Z * string) :=
  match k with
  | O => Some (acc, s)
  | S k' =>
      match s with
      | String c s' =>
          if is_digit c then read_digits k' (acc * 10 + digit_val c) s' else None
      | EmptyString => None
      end
  end.

Definition expect (c : ascii) (s : string) : option string :=
  match s with
  | String c' s' => if Ascii.eqb c c' then Some s' else None
  | EmptyString => None
  end.

(** ** datetime *)

Record datetime := {
  year : Z; month : Z; day : Z;
  hour : Z; minute : Z; second : Z; microsecond : Z
}.

Definition is_leap (y : Z) : bool :=
  (y mod 4 =? 0) && (negb (y mod 100 =? 0) || (y mod 400 =? 0)).

Definition days_in_month (y m : Z) : Z :=
  if m =? 2 then (if is_leap y then 29 else 28)
  else if (m =? 4) || (m =? 6) || (m =? 9) || (m =? 11) then 30
  else 31.

(** The invariant of a [datetime] object (MINYEAR = 1, MAXYEAR = 9999). *)
Definition datetime_ok (d : datetime) : bool :=
  (1 <=? year d) && (year d <=? 9999) &&
  (1 <=? month d) && (month d <=? 12) &&
  (1 <=? day d) && (day d <=? days_in_month (year d) (month d)) &&
  (0 <=? hour d) && (hour d <=? 23) &&
  (0 <=? minute d) && (minute d <=? 59) &&
  (0 <=? second d) && (second d <=? 59) &&
  (0 <=? microsecond d) && (microsecond d <=? 999999).

(** [datetime.isoformat()]: "YYYY-MM-DDTHH:MM:SS", followed by ".ffffff" when
    the microsecond field is not zero. *)
Definition isoformat (d : datetime) : string :=
  zpad 4 (year d) +:+ "-" +:+ zpad 2 (month d) +:+ "-" +:+ zpad 2 (day d) +:+
  "T" +:+ zpad 2 (hour d) +:+ ":" +:+ zpad 2 (minute d) +:+ ":" +:+ zpad 2 (second d) +:+
  (if microsecond d =? 0 then "" else "." +:+ zpad 6 (microsecond d)).

(** The characters of a printed integer. *)
Definition is_number_char (c : ascii) : bool := is_digit c || Ascii.eqb c "-".

(** The characters of a printed time: those of its numbers and the
    separators. *)
Definition is_time_char (c : ascii) : bool :=
  is_number_char c || Ascii.eqb c " " || Ascii.eqb c ":".

(** "%02d": a number of one digit gets a zero in front. *)
Definition pad2 (n : Z) : string :=
  if (0 <=? n) && (n <? 10) then "0" +:+ pretty n else pretty n.

(** [datetime.strftime('%Y-%m-%d %H:%M:%S')]. The C library prints "%Y" as
    the decimal number of the year, without padding: a year below 1000 has
    fewer than four digits. The other fields are printed with "%02d". *)
Definition strftime_Ymd_HMS (d : datetime) : string :=
  pretty (year d) +:+ "-" +:+ pad2 (month d) +:+ "-" +:+ pad2 (day d) +:+
  " " +:+ pad2 (hour d) +:+ ":" +:+ pad2 (minute d) +:+ ":" +:+ pad2 (second d).

(** Reading the date and the time of day back, with [sep] between them. *)
Definition read_date_time (sep : ascii) (s : string)
  : option (Z * Z * Z * Z * Z * Z * string) :=
  '(y, s) ← read_digits 4 0 s;
  s ← expect "-" s;
  '(mo, s) ← read_digits 2 0 s;
  s ← expect "-" s;
  '(d, s) ← read_digits 2 0 s;
  s ← expect sep s;
  '(h, s) ← read_digits 2 0 s;
  s ← expect ":" s;
  '(mi, s) ← read_digits 2 0 s;
  s ← expect ":" s;
  '(se, s) ← read_digits 2 0 s;
  Some (y, mo, d, h, mi, se, s).

(** A parser for the ISO-8601 forms "YYYY-MM-DDTHH:MM:SS[.ffffff]", the
    reading that [datetime.fromisoformat] gives them. *)
Definition fromisoformat (s : string) : option datetime :=
  '(y, mo, d, h, mi, se, s) ← read_date_time "T" s;
  '(us, s) ← match s with
              | EmptyString => Some (0, EmptyString)
              | _ => s ← expect "." s; read_digits 6 0 s
              end;
  let r := {| year := y; month := mo; day := d;
              hour := h; minute := mi; second := se; microsecond := us |} in
  match s with
  | EmptyString => if datetime_ok r then Some r else None
  | _ => None
  end.

(** [datetime.strptime(s, '%Y-%m-%d %H:%M:%S')] on the fixed-width form. *)
Definition strptime_Ymd_HMS (s : string) : option datetime :=
  '(y, mo, d, h, mi, se, s) ← read_date_time " " s;
  let r := {| year := y; month := mo; day := d;
              hour := h; minute := mi; second := se; microsecond := 0 |} in
  match s with
  | EmptyString => if datetime_ok r then Some r else None
  | _ => None
  end.

(** ** MarkupSafe and Jinja

    [render_template_string] renders with autoescaping on: the value of each
    [{{ name }}] goes through [markupsafe.escape]. *)

Definition escape_char (c : ascii) : string :=
  if Ascii.eqb c "&" then "&amp;"
  else if Ascii.eqb c "<" then "&lt;"
  else if Ascii.eqb c ">" then "&gt;"
  else if Ascii.eqb c "'" then "&#39;"
  else if Ascii.eqb c (chr 34) then "&#34;"
  else String c EmptyString.

Fixpoint escape (s : string) : string :=
  match s with
  | EmptyString => EmptyString
  | String c s' => escape_char c +:+ escape s'
  end.

(** The characters that [escape] rewrites. *)
Definition is_markup (c : ascii) : bool :=
  Ascii.eqb c "&" || Ascii.eqb c "<" || Ascii.eqb c ">" ||
  Ascii.eqb c "'" || Ascii.eqb c (chr 34).

(** The text a browser shows for escaped character data: the five character
    references that [escape] produces are read back. *)
Fixpoint strip_prefix (p s : string) : option string :=
  match p, s with
  | EmptyString, _ => Some s
  | String a p', String b s' => if Ascii.eqb a b then strip_prefix p' s' else None
  | String _ _, EmptyString => None
  end.

Definition references : list (string * ascii) :=
  [("&amp;", "&"%char); ("&lt;", "<"%char); ("&gt;", ">"%char);
   ("&#39;", "'"%char); ("&#34;", chr 34)].

Fixpoint read_reference_in (refs : list (string * ascii)) (s : string)
  : option (ascii * string) :=
  match refs with
  | [] => None
  | (e, c) :: refs' =>
      match strip_prefix e s with
      | Some rest => Some (c, rest)
      | None => read_reference_in refs' s
      end
  end.

Definition read_reference : string -> option (ascii * string) :=
  read_reference_in references.

Fixpoint shown_text_go (fuel : nat) (s : string) : string :=
  match fuel with
  | O => EmptyString
  | S fuel' =>
      match read_reference s with
      | Some (c, rest) => String c (shown_text_go fuel' rest)
      | None =>
          match s with
          | EmptyString => EmptyString
          | String c s' => String c (shown_text_go fuel' s')
          end
      end
  end.

Definition shown_text (s : string) : string := shown_text_go (String.length s) s.

(** A template is lexed into literal text and [{{ name }}] outputs. Statement
    and comment blocks, and expressions other than a bare name, are outside
    this model: lexing them yields [None]. *)
Inductive piece :=
  | Text (s : string)
  | Var (name : string).

Definition push_char (c : ascii) (ps : list piece) : list piece :=
  match ps with
  | Text t :: ps' => Text (String c t) :: ps'
  | _ => Text (String c EmptyString) :: ps
  end.

Definition is_name_char (c : ascii) : bool :=
  let n := ord c in
  ((97 <=? n) && (n <=? 122) || (65 <=? n) && (n <=? 90) ||
   (48 <=? n) && (n <=? 57) || (n =? 95))%nat.

Fixpoint lstrip_spaces (s : string) : string :=
  match s with
  | String c s' => if Ascii.eqb c " " then lstrip_spaces s' else s
  | EmptyString => EmptyString
  end.

(** The name in [{{ name }}]: the expression with the blanks around it
    removed, when what is left is an identifier. *)
Definition expression_name (e : string) : option string :=
  let n := String.rev (lstrip_spaces (String.rev (lstrip_spaces e))) in
  if all_chars is_name_char n && negb (String.eqb n "") then Some n else None.

(** [expr] is [None] in literal text and holds the expression read so far,
    last character first, inside [{{ ... }}]. *)
Fixpoint lex (s : string) (expr : option string) : option (list piece) :=
  match s, expr with
  | EmptyString, None => Some []
  | EmptyString, Some _ => None
  | String c s', None =>
      if Ascii.eqb c "{" then
        match s' with
        | String c' s'' =>
            if Ascii.eqb c' "{" then lex s'' (Some EmptyString)
            else if Ascii.eqb c' "%" || Ascii.eqb c' "#" then None
            else push_char c <$> lex s' None
        | EmptyString => push_char c <$> lex s' None
        end
      else push_char c <$> lex s' None
  | String c s', Some e =>
      if Ascii.eqb c "}" then
        match s' with
        | String c' s'' =>
            if Ascii.eqb c' "}" then
              name ← expression_name (String.rev e);
              (Var name ::.) <$> lex s'' None
            else lex s' (Some (String c e))
        | EmptyString => None
        end
      else lex s' (Some (String c e))
  end.

(** Jinja drops one trailing line feed of the template source. *)
Fixpoint chomp (s : string) : string :=
  match s with
  | EmptyString => EmptyString
  | String c s' =>
      match s' with
      | EmptyString => if Ascii.eqb c (chr 10) then EmptyString else s
      | String _ _ => String c (chomp s')
      end
  end.

(** A name that the context does not bind renders as the empty string. *)
Definition render_piece (context : gmap string string) (p : piece) : string :=
  match p with
  | Text t => t
  | Var x => escape (default EmptyString (context !! x))
  end.

Fixpoint render_pieces (context : gmap string string) (ps : list piece) : string :=
  match ps with
  | [] => EmptyString
  | p :: ps' => render_piece context p +:+ render_pieces context ps'
  end.

Definition render_template_string (source : string) (context : gmap string string)
  : option string :=
  ps ← lex (chomp source) None;
  Some (render_pieces context ps).

(** ** The process environment

    What a request or the start-up block reads from outside: the environment
    variables ([os.environ]), the host name ([socket.gethostname()]), the
    local clock ([datetime.now()]), the interpreter's version string
    ([os.sys.version]), and the response [send_from_directory] builds for a
    file name under the application's static folder ([None]: no such file). *)

Inductive json :=
  | JStr (s : string)
  | JInt (n : Z).

Inductive body :=
  | Html (text : string)
  | Json (d : gmap string json)
  | File (content : string)
  | NoBody
  | ErrorPage (code : Z)
  | RedirectPage (location : string)
  | DebuggerPage (error : string).

Record response := {
  status_code : Z;
  mimetype : string;
  data : body
}.

Record World := {
  environ : gmap string string;
  gethostname : string;
  now : datetime;
  sys_version : string;
  static_folder : string -> option response
}.

(** [os.getenv(key, default)]. *)
Definition getenv (env : gmap string string) (key fallback : string) : string :=
  default fallback (env !! key).

(** A dict display: the items are inserted from left to right. *)
Definition dict (items : list (string * json)) : gmap string json :=
  foldl (fun d kv => <[kv.1 := kv.2]> d) ∅ items.

(** [jsonify(d), code]. *)
Definition jsonify (d : gmap string json) (code : Z) : response :=
  {| status_code := code; mimetype := "application/json"; data := Json d |}.

(** ** Flask

    A view function returns a [str] or a response object (which here also
    stands for the pair of a response object and a status code), or it
    raises; an exception is either an [HTTPException] with its status code or
    any other [Exception]. *)

Inductive exception :=
  | HTTPException (code : Z)
  | Unhandled (error : string).

Inductive return_value :=
  | Str (text : string)
  | Object (r : response).

Inductive result (A : Type) :=
  | Returned (a : A)
  | Raised (e : exception).

Arguments Returned {A} a.
Arguments Raised {A} e.

(** The response to a request, or the exception in its place. *)
Definition outcome : Type := result response.

(** A URL rule: a literal path, or a literal prefix followed by a
    [<path:...>] argument. The converter's expression is "[^/].*?": one or
    more characters, the first not a slash, none after the first a line
    feed. *)
Inductive pattern :=
  | Exact (p : string)
  | PathUnder (prefix : string).

Record rule := {
  rule_pattern : pattern;
  endpoint : string;
  methods : list string;
  view_func : World -> string -> result return_value
}.

Record Flask := {
  url_map : list rule;
  error_handler_spec : Z -> option (exception -> response);
  debug : bool
}.

Definition match_pattern (pt : pattern) (path : string) : option string :=
  match pt with
  | Exact p => if String.eqb p path then Some EmptyString else None
  | PathUnder prefix =>
      match strip_prefix prefix path with
      | Some (String c rest) =>
          if Ascii.eqb c "/" then None
          else if all_chars (fun c' => negb (Ascii.eqb c' (chr 10))) rest
          then Some (String c rest)
          else None
      | _ => None
      end
  end.

(** A rule registered without [methods] answers GET, and with it HEAD and the
    automatic OPTIONS. *)
Definition default_methods : list string := ["GET"; "HEAD"; "OPTIONS"].

(** The first rule that matches the path and allows the method, with the
    argument it binds. (The rules of the application match disjoint sets of
    paths, so that the order in which the router tries them does not show.) *)
Fixpoint find_rule (rules : list rule) (m path : string) : option (rule * string) :=
  match rules with
  | [] => None
  | r :: rules' =>
      match match_pattern (rule_pattern r) path with
      | Some arg =>
          if bool_decide (m ∈ methods r) then Some (r, arg) else find_rule rules' m path
      | None => find_rule rules' m path
      end
  end.

(** Some rule matches the path, whatever its methods. *)
Definition path_matches (rules : list rule) (path : string) : bool :=
  existsb (fun r => bool_decide (is_Some (match_pattern (rule_pattern r) path))) rules.

(** A rule that ends in a slash and allows the method matches the path with
    a slash added. *)
Definition slash_required (rules : list rule) (m path : string) : bool :=
  existsb (fun r =>
             match rule_pattern r with
             | Exact p => String.eqb p (path +:+ "/") && bool_decide (m ∈ methods r)
             | PathUnder _ => false
             end) rules.

Fixpoint lstrip_slashes (s : string) : string :=
  match s with
  | String c s' => if Ascii.eqb c "/" then lstrip_slashes s' else s
  | EmptyString => EmptyString
  end.

(** The path the rules are compared with:
    [f"/{path_info.lstrip('/')}" if path_info else ""]. *)
Definition path_part (path_info : string) : string :=
  match path_info with
  | EmptyString => EmptyString
  | _ => "/" +:+ lstrip_slashes path_info
  end.

(** [re.sub("/{2,}?", "/", path)]: from left to right, each pair of adjacent
    slashes becomes one slash. *)
Fixpoint merge_slashes (s : string) : string :=
  match s with
  | String a s' =>
      match s' with
      | String b s'' =>
          if Ascii.eqb a "/" && Ascii.eqb b "/" then String "/" (merge_slashes s'')
          else String a (merge_slashes s')
      | EmptyString => s
      end
  | EmptyString => EmptyString
  end.

Inductive matching :=
  | Found (r : rule) (arg : string)
  | SlashRequired
  | NoRule.

Definition match_rules (rules : list rule) (m path : string) : matching :=
  match find_rule rules m path with
  | Some (r, arg) => Found r arg
  | None => if slash_required rules m path then SlashRequired else NoRule
  end.

(** What the router answers for a method and the path of a request: the rule
    to dispatch to, or one of its three routing exceptions. *)
Inductive routing :=
  | Matched (r : rule) (arg : string)
  | RequestRedirect (location : string)
  | MethodNotAllowed
  | NotFound.

(** [MapAdapter.match]. The path is compared with the rules as it is, after
    its leading slashes are replaced by one. When no rule answers, the path
    with its slashes merged is tried, and a rule that answers it makes the
    router redirect there. Otherwise the request is not allowed when a rule
    matched one of the two paths but not the method, and not found when
    none did. *)
Definition match_request (rules : list rule) (m path_info : string) : routing :=
  let p := path_part path_info in
  match match_rules rules m p with
  | Found r arg => Matched r arg
  | SlashRequired => RequestRedirect (p +:+ "/")
  | NoRule =>
      let q := merge_slashes p in
      match match_rules rules m q with
      | Found _ _ => RequestRedirect q
      | SlashRequired => RequestRedirect (q +:+ "/")
      | NoRule =>
          if path_matches rules p || path_matches rules q then MethodNotAllowed
          else NotFound
      end
  end.

(** The response of an [HTTPException] when no handler is registered for it. *)
Definition default_error_response (code : Z) : response :=
  {| status_code := code; mimetype := "text/html"; data := ErrorPage code |}.

Definition make_default_options_response : response :=
  {| status_code := 200; mimetype := "text/html"; data := NoBody |}.

(** The response of a [RequestRedirect]: status 308, with the URL of the
    path in its [Location] header and in its page. A routing exception is
    returned as it is, no error handler is looked up for it. *)
Definition redirect_response (location : string) : response :=
  {| status_code := 308; mimetype := "text/html"; data := RedirectPage location |}.

Definition handle_http_exception (a : Flask) (code : Z) : response :=
  match error_handler_spec a code with
  | Some handler => handler (HTTPException code)
  | None => default_error_response code
  end.

(** An exception that is not an [HTTPException]: in debug mode it is raised
    again and leaves the application; otherwise it becomes an
    [InternalServerError] for the registered handler. *)
Definition handle_exception (a : Flask) (error : string) : outcome :=
  if debug a then Raised (Unhandled error)
  else Returned (handle_http_exception a 500).

(** [Flask.make_response]: a [str] becomes the body of an HTML response
    with status 200; it is encoded as UTF-8, which raises when the string
    holds a lone surrogate. A response object is returned as it is. *)
Definition make_response (rv : return_value) : outcome :=
  match rv with
  | Str text =>
      if is_utf8 text
      then Returned {| status_code := 200; mimetype := "text/html"; data := Html text |}
      else Raised (Unhandled "UnicodeEncodeError")
  | Object r => Returned r
  end.

(** [Flask.full_dispatch_request] for the rule that matched: its view
    function is called and what it returns is made into a response. *)
Definition full_dispatch_request (r : rule) (w : World) (arg : string) : outcome :=
  match view_func r w arg with
  | Returned rv => make_response rv
  | Raised e => Raised e
  end.

Definition upper_char (c : ascii) : ascii :=
  let n := ord c in
  if ((97 <=? n) && (n <=? 122))%nat then chr (n - 32) else c.

(** [str.upper()] on the ASCII letters. The method of a request reaches the
    application as the server read it from the request line; the names of
    the methods that the rules allow have ASCII letters only (and no letter
    twice in a row, which rules out a sharp s). *)
Fixpoint upper (s : string) : string :=
  match s with
  | EmptyString => EmptyString
  | String c s' => String (upper_char c) (upper s')
  end.

(** A request as the server hands it to the application: the method of the
    request line (REQUEST_METHOD) and the path of its URL, percent-decoded
    (PATH_INFO). *)
Record request := {
  method : string;
  path : string
}.

(** [Flask.wsgi_app]: the response object the application produces for a
    request, or the exception that leaves it. The method is compared in
    upper case. A HEAD request gets the response object of the GET; the
    server leaves its body out. *)
Definition wsgi_app (a : Flask) (w : World) (req : request) : outcome :=
  let m := upper (method req) in
  match match_request (url_map a) m (path req) with
  | NotFound => Returned (handle_http_exception a 404)
  | MethodNotAllowed => Returned (handle_http_exception a 405)
  | RequestRedirect location => Returned (redirect_response location)
  | Matched r arg =>
      if String.eqb m "OPTIONS" then Returned make_default_options_response
      else
        match full_dispatch_request r w arg with
        | Returned resp => Returned resp
        | Raised (HTTPException code) => Returned (handle_http_exception a code)
        | Raised (Unhandled error) => handle_exception a error
        end
  end.

(** The development server that [app.run] starts. In debug mode the
    application is wrapped in the debugger, which answers an exception with
    its traceback page. *)
Definition debugger_response (error : string) : response :=
  {| status_code := 500; mimetype := "text/html"; data := DebuggerPage error |}.

Definition debugged_application (o : outcome) : outcome :=
  match o with
  | Raised (Unhandled error) => Returned (debugger_response error)
  | _ => o
  end.

(** The application object that the server calls for each request. *)
Definition served_app (a : Flask) (w : World) (req : request) : outcome :=
  let o := wsgi_app a w req in
  if debug a then debugged_application o else o.

(** The request handler of the server: an exception that reaches it is logged
    and answered with the server's own error page. *)
Definition run_wsgi (a : Flask) (w : World) (req : request) : response :=
  match served_app a w req with
  | Returned resp => resp
  | Raised _ => default_error_response 500
  end.



(** ** src/app.py *)

(** [HTML_TEMPLATE], the template of the home page. *)
Definition HTML_TEMPLATE : string := join_lines [
  "";
  "<!DOCTYPE html>";
  "<html lang=" +:+ dq +:+ "en" +:+ dq +:+ ">";
  "<head>";
  "    <meta charset=" +:+ dq +:+ "UTF-8" +:+ dq +:+ ">";
  "    <meta name=" +:+ dq +:+ "viewport" +:+ dq +:+ " content=" +:+ dq +:+ "width=device-width, initial-scale=1.0" +:+ dq +:+ ">";
  "    <title>HNG13 DevOps - Stage 1</title>";
  "    <style>";
  "        * {";
  "            margin: 0;";
  "            padding: 0;";
  "            box-sizing: border-box;";
  "        }";
  "        ";
  "        body {";
  "            font-family: 'Segoe UI', Tahoma, Geneva, Verdana, sans-serif;";
  "            background: linear-gradient(135deg, #667eea 0%, #764ba2 100%);";
  "            min-height: 100vh;";
  "            display: flex;";
  "            justify-content: center;";
  "            align-items: center;";
  "            padding: 20px;";
  "        }";
  "        ";
  "        .container {";
  "            background: white;";
  "            border-radius: 20px;";
  "            box-shadow: 0 20px 60px rgba(0, 0, 0, 0.3);";
  "            padding: 40px;";
  "            max-width: 600px;";
  "            width: 100%;";
  "            animation: slideIn 0.5s ease-out;";
  "        }";
  "        ";
  "        @keyframes slideIn {";
  "            from {";
  "                opacity: 0;";
  "                transform: translateY(-30px);";
  "            }";
  "            to {";
  "                opacity: 1;";
  "                transform: translateY(0);";
  "            }";
  "        }";
  "        ";
  "        h1 {";
  "            color: #333;";
  "            margin-bottom: 10px;";
  "            font-size: 2.5em;";
  "            text-align: center;";
  "        }";
  "        ";
  "        .subtitle {";
  "            color: #667eea;";
  "            text-align: center;";
  "            font-size: 1.2em;";
  "            margin-bottom: 30px;";
  "            font-weight: 500;";
  "        }";
  "        ";
  "        .status {";
  "            background: #f0f4ff;";
  "            border-left: 4px solid #667eea;";
  "            padding: 20px;";
  "            border-radius: 8px;";
  "            margin: 20px 0;";
  "        }";
  "        ";
  "        .status-item {";
  "            display: flex;";
  "            justify-content: space-between;";
  "            padding: 10px 0;";
  "            border-bottom: 1px solid #e0e0e0;";
  "        }";
  "        ";
  "        .status-item:last-child {";
  "            border-bottom: none;";
  "        }";
  "        ";
  "        .label {";
  "            font-weight: 600;";
  "            color: #555;";
  "        }";
  "        ";
  "        .value {";
  "            color: #667eea;";
  "            font-family: 'Courier New', monospace;";
  "        }";
  "        ";
  "        .success {";
  "            background: #d4edda;";
  "            color: #155724;";
  "            padding: 15px;";
  "            border-radius: 8px;";
  "            text-align: center;";
  "            font-weight: 600;";
  "            margin-top: 20px;";
  "        }";
  "        ";
  "        .api-link {";
  "            display: block;";
  "            background: #667eea;";
  "            color: white;";
  "            text-decoration: none;";
  "            padding: 12px 24px;";
  "            border-radius: 8px;";
  "            text-align: center;";
  "            margin-top: 20px;";
  "            transition: background 0.3s;";
  "        }";
  "        ";
  "        .api-link:hover {";
  "            background: #764ba2;";
  "        }";
  "        ";
  "        .footer {";
  "            text-align: center;";
  "            margin-top: 30px;";
  "            color: #888;";
  "            font-size: 0.9em;";
  "        }";
  "        ";
  "        .badge {";
  "            display: inline-block;";
  "            background: #28a745;";
  "            color: white;";
  "            padding: 4px 12px;";
  "            border-radius: 12px;";
  "            font-size: 0.8em;";
  "            font-weight: 600;";
  "        }";
  "    </style>";
  "</head>";
  "<body>";
  "    <div class=" +:+ dq +:+ "container" +:+ dq +:+ ">";
  "        <h1>🚀 HNG13 DevOps</h1>";
  "        <div class=" +:+ dq +:+ "subtitle" +:+ dq +:+ ">Stage 1 - Automated Deployment</div>";
  "        ";
  "        <div class=" +:+ dq +:+ "success" +:+ dq +:+ ">";
  "            ✅ Application Successfully Deployed!";
  "        </div>";
  "        ";
  "        <div class=" +:+ dq +:+ "status" +:+ dq +:+ ">";
  "            <div class=" +:+ dq +:+ "status-item" +:+ dq +:+ ">";
  "                <span class=" +:+ dq +:+ "label" +:+ dq +:+ ">Status:</span>";
  "                <span class=" +:+ dq +:+ "value" +:+ dq +:+ "><span class=" +:+ dq +:+ "badge" +:+ dq +:+ ">RUNNING</span></span>";
  "            </div>";
  "            <div class=" +:+ dq +:+ "status-item" +:+ dq +:+ ">";
  "                <span class=" +:+ dq +:+ "label" +:+ dq +:+ ">Hostname:</span>";
  "                <span class=" +:+ dq +:+ "value" +:+ dq +:+ ">{{ hostname }}</span>";
  "            </div>";
  "            <div class=" +:+ dq +:+ "status-item" +:+ dq +:+ ">";
  "                <span class=" +:+ dq +:+ "label" +:+ dq +:+ ">Server Time:</span>";
  "                <span class=" +:+ dq +:+ "value" +:+ dq +:+ ">{{ current_time }}</span>";
  "            </div>";
  "            <div class=" +:+ dq +:+ "status-item" +:+ dq +:+ ">";
  "                <span class=" +:+ dq +:+ "label" +:+ dq +:+ ">Port:</span>";
  "                <span class=" +:+ dq +:+ "value" +:+ dq +:+ ">{{ port }}</span>";
  "            </div>";
  "            <div class=" +:+ dq +:+ "status-item" +:+ dq +:+ ">";
  "                <span class=" +:+ dq +:+ "label" +:+ dq +:+ ">Environment:</span>";
  "                <span class=" +:+ dq +:+ "value" +:+ dq +:+ ">{{ environment }}</span>";
  "            </div>";
  "        </div>";
  "        ";
  "        <a href=" +:+ dq +:+ "/api/health" +:+ dq +:+ " class=" +:+ dq +:+ "api-link" +:+ dq +:+ ">📊 Check Health API</a>";
  "        <a href=" +:+ dq +:+ "/api/info" +:+ dq +:+ " class=" +:+ dq +:+ "api-link" +:+ dq +:+ ">ℹ️ View System Info</a>";
  "        ";
  "        <div class=" +:+ dq +:+ "footer" +:+ dq +:+ ">";
  "            <p>Deployed with ❤️ using Docker & Nginx</p>";
  "            <p style=" +:+ dq +:+ "margin-top: 5px;" +:+ dq +:+ ">HNG Internship 13.0 | DevOps Track</p>";
  "        </div>";
  "    </div>";
  "</body>";
  "</html>";
  ""
]%string.

(** The static rule that [Flask(__name__)] registers. *)
Definition send_static_file (w : World) (filename : string) : result return_value :=
  match static_folder w filename with
  | Some r => Returned (Object r)
  | None => Raised (HTTPException 404)
  end.

Definition static_rule : rule :=
  {| rule_pattern := PathUnder "/static/"; endpoint := "static";
     methods := default_methods; view_func := send_static_file |}.

(** [@app.route(p)] over a view function without arguments. *)
Definition route (p : string) (name : string) (f : World -> result return_value) : rule :=
  {| rule_pattern := Exact p; endpoint := name;
     methods := default_methods; view_func := fun w _ => f w |}.

(** Home page with deployment status. *)
Definition home (w : World) : result return_value :=
  match render_template_string HTML_TEMPLATE
          (<["environment" := getenv (environ w) "ENVIRONMENT" "production"]>
           (<["port" := getenv (environ w) "PORT" "5000"]>
            (<["current_time" := strftime_Ymd_HMS (now w)]>
             (<["hostname" := gethostname w]> ∅)))) with
  | Some html => Returned (Str html)
  | None => Raised (Unhandled "TemplateSyntaxError")
  end.

(** Health check endpoint. *)
Definition health (w : World) : result return_value :=
  Returned (Object (jsonify (dict [
    ("status", JStr "healthy");
    ("timestamp", JStr (isoformat (now w)));
    ("service", JStr "hng13-devops-stage1");
    ("version", JStr "1.0.0")
  ]) 200)).

(** System information endpoint. *)
Definition info (w : World) : result return_value :=
  Returned (Object (jsonify (dict [
    ("application", JStr "HNG13 DevOps Stage 1");
    ("hostname", JStr (gethostname w));
    ("timestamp", JStr (isoformat (now w)));
    ("port", JStr (getenv (environ w) "PORT" "5000"));
    ("environment", JStr (getenv (environ w) "ENVIRONMENT" "production"));
    ("python_version", JStr (sys_version w));
    ("status", JStr "running")
  ]) 200)).

(** Simple status check. *)
Definition status (w : World) : result return_value :=
  Returned (Object (jsonify (dict [
    ("status", JStr "ok");
    ("message", JStr "Application is running successfully")
  ]) 200)).

(** Handle 404 errors. *)
Definition not_found (error : exception) : response :=
  jsonify (dict [
    ("error", JStr "Not Found");
    ("message", JStr "The requested endpoint does not exist");
    ("status", JInt 404)
  ]) 404.

(** Handle 500 errors. *)
Definition internal_error (error : exception) : response :=
  jsonify (dict [
    ("error", JStr "Internal Server Error");
    ("message", JStr "An unexpected error occurred");
    ("status", JInt 500)
  ]) 500.

Definition error_handlers (code : Z) : option (exception -> response) :=
  if code =? 404 then Some not_found
  else if code =? 500 then Some internal_error
  else None.

(** The application object around a URL map: the handlers registered with
    [@app.errorhandler] and the debug flag [app.run] was given. *)
Definition application (rules : list rule) (debug_flag : bool) : Flask :=
  {| url_map := rules; error_handler_spec := error_handlers; debug := debug_flag |}.

Definition routes : list rule :=
  [ static_rule;
    route "/" "home" home;
    route "/api/health" "health" health;
    route "/api/info" "info" info;
    route "/api/status" "status" status ].

Definition app (debug_flag : bool) : Flask := application routes debug_flag.

(** *** Start-up *)

(** The white space of [str.isspace] among the ASCII characters: the
    characters 9 to 13, the separators 28 to 31 and the blank. *)
Definition is_space (c : ascii) : bool :=
  let n := ord c in
  ((9 <=? n) && (n <=? 13) || (28 <=? n) && (n <=? 32))%nat.

(** The white space that [int] skips around a literal of ASCII characters:
    the characters 9 to 13 and the blank, but not the separators 28 to 31. *)
Definition is_c_space (c : ascii) : bool :=
  let n := ord c in
  ((9 <=? n) && (n <=? 13) || (n =? 32))%nat.

Definition is_ascii (s : string) : bool :=
  all_chars (in_range 0 127) s.

Definition max_str_digits : nat := 4300.

(** The digits of an integer literal: single underscores may stand between
    digits, white space may follow, and there are at most [max_str_digits]
    digits. [seen] counts the digits read, [after_digit] tells whether the
    last character was one. *)
Fixpoint int_digits (s : string) (acc : Z) (seen : nat) (after_digit : bool) : option Z :=
  match s with
  | EmptyString =>
      if after_digit && (seen <=? max_str_digits)%nat then Some acc else None
  | String c s' =>
      if is_digit c then int_digits s' (acc * 10 + digit_val c) (S seen) true
      else if Ascii.eqb c "_" then
        (if after_digit then int_digits s' acc seen false else None)
      else if is_c_space c then
        (if after_digit && all_chars is_c_space s' && (seen <=? max_str_digits)%nat
         then Some acc else None)
      else None
  end.

Fixpoint lstrip (s : string) : string :=
  match s with
  | String c s' => if is_c_space c then lstrip s' else s
  | EmptyString => EmptyString
  end.

(** What [int(s)] does with a string: it returns a number, it raises
    [ValueError], or, for a string with characters outside ASCII, the
    answer depends on which of them the Unicode database of the interpreter
    counts as decimal digits and as white space. *)
Inductive int_result :=
  | IntValue (n : Z)
  | IntValueError
  | IntByUnicodeData.

(** [int(s)], decided for the strings of ASCII characters. *)
Definition python_int (s : string) : int_result :=
  if is_ascii s then
    match
      match lstrip s with
      | String c s' =>
          if Ascii.eqb c "-" then Z.opp <$> int_digits s' 0 0 false
          else if Ascii.eqb c "+" then int_digits s' 0 0 false
          else int_digits (String c s') 0 0 false
      | EmptyString => None
      end
    with
    | Some n => IntValue n
    | None => IntValueError
    end
  else IntByUnicodeData.

Definition lower_char (c : ascii) : ascii :=
  let n := ord c in
  if ((65 <=? n) && (n <=? 90))%nat then chr (n + 32) else c.

(** [str.lower()] on the ASCII letters. *)
Fixpoint lower (s : string) : string :=
  match s with
  | EmptyString => EmptyString
  | String c s' => String (lower_char c) (lower s')
  end.

Definition python_str_bool (b : bool) : string := if b then "True" else "False".

(** The outcome of the start-up block: it dies with an exception, or it
    prints its banner and calls [app.run]; for a PORT with characters
    outside ASCII, which of the two is left to the Unicode database. *)
Inductive startup :=
  | Died (error : string)
  | AppRun (stdout : list string) (host : string) (port : Z) (debug_flag : bool)
  | ByUnicodeData.

(** [if __name__ == '__main__':] *)
Definition main (env : gmap string string) : startup :=
  match (match env !! "PORT" with
         | Some s => python_int s
         | None => IntValue 5000
         end) with
  | IntValueError => Died "ValueError"
  | IntByUnicodeData => ByUnicodeData
  | IntValue port =>
      let debug_flag := String.eqb (lower (getenv env "DEBUG" "False")) "true" in
      AppRun
        [ "Starting HNG13 DevOps Application...";
          "Running on port " +:+ pretty port;
          "Debug mode: " +:+ python_str_bool debug_flag ]
        "0.0.0.0" port debug_flag
  end.

(** ** Vocabulary of the route contract *)

Definition GET (p : string) : request := {| method := "GET"; path := p |}.

Definition json_response (code : Z) (d : gmap string json) : response :=
  {| status_code := code; mimetype := "application/json"; data := Json d |}.

(** The path is one of the routes of the application: it matches one of its
    rules. *)
Definition defined_route (p : string) : bool := path_matches routes p.

(** Answering [req] reaches the handler of a route, and the handler, or the
    making of the response from what it returns, raises an exception that is
    not an [HTTPException]. *)
Definition handler_fault (rules : list rule) (w : World) (req : request) (error : string)
  : Prop :=
  exists r arg,
    match_request rules (upper (method req)) (path req) = Matched r arg /\
    upper (method req) <> "OPTIONS" /\
    full_dispatch_request r w arg = Raised (Unhandled error).

(** The host name and the values of PORT and ENVIRONMENT, as the home page
    shows them, are well-formed UTF-8. *)
Definition text_ok (w : World) : bool :=
  is_utf8 (gethostname w) &&
  is_utf8 (getenv (environ w) "PORT" "5000") &&
  is_utf8 (getenv (environ w) "ENVIRONMENT" "production").

(** The template of the home page, lexed: literal segments at the even
    positions, the four outputs between them. *)
Definition template_pieces : list piece :=
  Eval vm_compute in default [] (lex (chomp HTML_TEMPLATE) None).

Definition segment (i : nat) : string :=
  match template_pieces !! i with
  | Some (Text t) => t
  | _ => EmptyString
  end.

(** The home page around its four values, each escaped. *)
Definition home_html (h t p e : string) : string :=
  segment 0 +:+ escape h +:+ segment 2 +:+ escape t +:+ segment 4 +:+
  escape p +:+ segment 6 +:+ escape e +:+ segment 8.

(** A row of the status box up to its value: the label, then the opening tag
    of the value. *)
Definition row_open (label : string) : string :=
  "<span class=" +:+ dq +:+ "label" +:+ dq +:+ ">" +:+ label +:+ "</span>" +:+ nl +:+
  "                <span class=" +:+ dq +:+ "value" +:+ dq +:+ ">".

(** The page has a row with this label whose value is character data that
    reads [value]. *)
Definition page_displays (label value html : string) : Prop :=
  exists pre shown post,
    html = pre +:+ row_open label +:+ shown +:+ "</span>" +:+ post /\
    all_chars (fun c => negb (Ascii.eqb c "<")) shown = true /\
    shown_text shown = value.


(** [/api/info] shows [v] as the environment. *)
Definition info_displays_environment (d : bool) (w : World) (v : string) : Prop :=
  exists body,
    data (run_wsgi (app d) w (GET "/api/info")) = Json body /\
    body !! "environment" = Some (JStr v).

(** The home page shows [v] as the environment. *)
Definition home_displays_environment (d : bool) (w : World) (v : string) : Prop :=
  exists html,
    data (run_wsgi (app d) w (GET "/")) = Html html /\
    page_displays "Environment:" v html.

(** A response of the application to a request that it answers without a
    fault, in the environment [w]. *)
Definition regular_response (w : World) (resp : response) : Prop :=
  resp = not_found (HTTPException 404) \/
  resp = default_error_response 405 \/
  resp = make_default_options_response \/
  (exists location, resp = redirect_response location) \/
  (exists filename, static_folder w filename = Some resp) \/
  (exists html,
     home w = Returned (Str html) /\
     resp = {| status_code := 200; mimetype := "text/html"; data := Html html |}) \/
  health w = Returned (Object resp) \/
  info w = Returned (Object resp) \/ status w = Returned (Object resp).

(** The number of occurrences of a character. *)
Fixpoint count_char (c : ascii) (s : string) : nat :=
  match s with
  | EmptyString => O
  | String c' s' => ((if Ascii.eqb c c' then 1 else 0) + count_char c s')%nat
  end.

(** The characters with which markup is written: the delimiters of a tag and
    of an attribute value. *)
Definition is_delimiter (c : ascii) : bool :=
  Ascii.eqb c "<" || Ascii.eqb c ">" || Ascii.eqb c "'" || Ascii.eqb c (chr 34).

(** A clock reading whose year has four digits. *)
Definition wall_clock_ok (d : datetime) : bool :=
  datetime_ok d && (1000 <=? year d).

(** *** Sample inputs *)

Definition sample_world : World :=
  {| environ := {[ "ENVIRONMENT" := "staging"; "PORT" := "8080" ]};
     gethostname := "web-1";
     now := {| year := 2025; month := 10; day := 17;
               hour := 9; minute := 5; second := 42; microsecond := 1500 |};
     sys_version := "3.12.3 (main)";
     static_folder := fun _ => None |}.

(** No environment variable is set and the host name holds an ampersand. *)
Definition ampersand_world : World :=
  {| environ := ∅; gethostname := "a&b"; now := now sample_world;
     sys_version := sys_version sample_world; static_folder := fun _ => None |}.

(** The sample environment a moment later in the same second, with another
    interpreter and one more variable set. *)
Definition later_world : World :=
  {| environ := <["DEBUG" := "true"]> (environ sample_world);
     gethostname := gethostname sample_world;
     now := {| year := 2025; month := 10; day := 17;
               hour := 9; minute := 5; second := 42; microsecond := 0 |};
     sys_version := "3.13.0 (main)";
     static_folder := fun _ => None |}.

(** ENVIRONMENT holds the single byte 255, which is not UTF-8. *)
Definition garbled_world : World :=
  {| environ := {[ "ENVIRONMENT" := String (chr 255) EmptyString; "PORT" := "8080" ]};
     gethostname := gethostname sample_world; now := now sample_world;
     sys_version := sys_version sample_world; static_folder := fun _ => None |}.

(** The sample environment with a static folder that has a file for every
    name. *)
Definition static_world : World :=
  {| environ := environ sample_world; gethostname := gethostname sample_world;
     now := now sample_world; sys_version := sys_version sample_world;
     static_folder := fun name =>
       Some {| status_code := 200; mimetype := "application/octet-stream";
               data := File name |} |}.

(** The last second of the year 999. *)
Definition early_world : World :=
  {| environ := environ sample_world; gethostname := gethostname sample_world;
     now := {| year := 999; month := 12; day := 31;
               hour := 23; minute := 59; second := 59; microsecond := 0 |};
     sys_version := sys_version sample_world; static_folder := fun _ => None |}.

(** * Properties *)

(** ** Strings *)

#[local] Arguments String.append !s1 s2 : simpl nomatch.

Lemma append_assoc (a b c : string) : (a +:+ b) +:+ c = a +:+ (b +:+ c).
Proof. induction a as [|x a IH]; simpl; [reflexivity | now f_equal]. Qed.

Lemma append_nil_r (a : string) : a +:+ "" = a.
Proof. induction a as [|x a IH]; simpl; [reflexivity | now f_equal]. Qed.

Lemma starts_with_spec (p s : string) :
  starts_with p s = true <-> exists r, s = p +:+ r.
Proof.
  revert s. induction p as [|a p IH]; intros s; simpl.
  - split; [exists s; reflexivity | reflexivity].
  - destruct s as [|b s].
    + split; [discriminate | intros [r Hr]; discriminate].
    + destruct (Ascii.eqb_spec a b) as [->|Hab].
      * rewrite IH. split; intros [r Hr]; exists r; congruence.
      * split; [discriminate | intros [r Hr]; congruence].
Qed.

Lemma find_in_spec (needle hay : string) :
  find_in needle hay = true <-> contains needle hay.
Proof.
  unfold contains. induction hay as [|c hay IH]; simpl.
  - rewrite orb_false_r, starts_with_spec. split.
    + intros [r Hr]. exists EmptyString, r. exact Hr.
    + intros ([|x pre] & post & H); [exists post; exact H | discriminate].
  - rewrite orb_true_iff, starts_with_spec, IH. split.
    + intros [[r Hr] | (pre & post & H)].
      * exists EmptyString, r. exact Hr.
      * exists (String c pre), post. simpl. now rewrite H.
    + intros ([|x pre] & post & H).
      * left. exists post. exact H.
      * right. exists pre, post. simpl in H. congruence.
Qed.

Lemma contains_app_l (needle a b : string) :
  contains needle a -> contains needle (a +:+ b).
Proof.
  intros (pre & post & ->). exists pre, (post +:+ b).
  now rewrite !append_assoc.
Qed.

Lemma contains_app_r (needle a b : string) :
  contains needle b -> contains needle (a +:+ b).
Proof.
  intros (pre & post & ->). exists (a +:+ pre), post.
  now rewrite !append_assoc.
Qed.

Lemma contains_here (needle post : string) : contains needle (needle +:+ post).
Proof. exists EmptyString, post. reflexivity. Qed.

Create HintDb substring discriminated.
#[local] Hint Resolve contains_here contains_app_l contains_app_r : substring.

Lemma all_chars_app (P : ascii -> bool) (a b : string) :
  all_chars P (a +:+ b) = all_chars P a && all_chars P b.
Proof.
  unfold all_chars. induction a as [|c a IH]; cbn [String.append list_ascii_of_string forallb].
  - reflexivity.
  - now rewrite IH, andb_assoc.
Qed.

Lemma all_chars_impl (P Q : ascii -> bool) (s : string) :
  (forall c, P c = true -> Q c = true) ->
  all_chars P s = true -> all_chars Q s = true.
Proof.
  intros HPQ. unfold all_chars.
  induction (list_ascii_of_string s) as [|c l IH]; cbn [forallb]; [reflexivity|].
  rewrite !andb_true_iff. intros [Hc Hl]. split; [now apply HPQ | now apply IH].
Qed.

(** ** Decimal fields *)

Lemma digit_char_spec (d : Z) :
  0 <= d < 10 -> is_digit (digit_char d) = true /\ digit_val (digit_char d) = d.
Proof.
  intros H.
  assert (d = 0 \/ d = 1 \/ d = 2 \/ d = 3 \/ d = 4 \/
          d = 5 \/ d = 6 \/ d = 7 \/ d = 8 \/ d = 9) as Hd by lia.
  repeat (destruct Hd as [-> | Hd]); try subst d; split; reflexivity.
Qed.

Lemma zpad_S (k : nat) (n : Z) :
  zpad (S k) n =
    String (digit_char (n / 10 ^ Z.of_nat k)) (zpad k (n mod 10 ^ Z.of_nat k)).
Proof. reflexivity. Qed.

Lemma read_digits_zpad (k : nat) (n acc : Z) (rest : string) :
  0 <= n < 10 ^ Z.of_nat k ->
  read_digits k acc (zpad k n +:+ rest) = Some (acc * 10 ^ Z.of_nat k + n, rest).
Proof.
  revert n acc. induction k as [|k IH]; intros n acc H.
  - simpl in *. do 2 f_equal. lia.
  - rewrite Nat2Z.inj_succ, Z.pow_succ_r in * by lia.
    assert (0 < 10 ^ Z.of_nat k) as Hp by (apply Z.pow_pos_nonneg; lia).
    assert (0 <= n / 10 ^ Z.of_nat k < 10) as Hq.
    { split; [apply Z.div_pos; lia | apply Z.div_lt_upper_bound; lia]. }
    assert (0 <= n mod 10 ^ Z.of_nat k < 10 ^ Z.of_nat k) as Hr
      by (apply Z.mod_pos_bound; lia).
    destruct (digit_char_spec _ Hq) as [Hd Hv].
    rewrite zpad_S. cbn [read_digits String.append]. rewrite Hd, Hv, IH by exact Hr.
    do 2 f_equal. pose proof (Z.div_mod n (10 ^ Z.of_nat k)). nia.
Qed.

Lemma read_zpad (k : nat) (n : Z) (rest : string) :
  0 <= n < 10 ^ Z.of_nat k ->
  read_digits k 0 (zpad k n +:+ rest) = Some (n, rest).
Proof. intros H. now rewrite read_digits_zpad. Qed.

Arguments zpad : simpl never.

Lemma pretty_N_char_digit_char (m : N) :
  (m < 10)%N -> pretty_N_char m = digit_char (Z.of_N m).
Proof.
  intros H.
  assert (m = 0 \/ m = 1 \/ m = 2 \/ m = 3 \/ m = 4 \/
          m = 5 \/ m = 6 \/ m = 7 \/ m = 8 \/ m = 9)%N as Hm by lia.
  repeat (destruct Hm as [-> | Hm]); try subst m; reflexivity.
Qed.

(** The last digit of a field is the remainder by ten. *)
Lemma zpad_snoc (k : nat) (n : Z) :
  0 <= n < 10 ^ Z.of_nat (S k) ->
  zpad (S k) n = zpad k (n / 10) +:+ String (digit_char (n mod 10)) "".
Proof.
  revert n. induction k as [|k IH]; intros n H.
  - change (10 ^ Z.of_nat 1) with 10 in H. rewrite zpad_S.
    change (10 ^ Z.of_nat 0) with 1. rewrite Z.div_1_r, (Z.mod_small n 10) by lia. reflexivity.
  - rewrite (zpad_S (S k) n), (zpad_S k (n / 10)).
    rewrite Nat2Z.inj_succ, Z.pow_succ_r in H by lia.
    assert (0 < 10 ^ Z.of_nat (S k)) as Hp by (apply Z.pow_pos_nonneg; lia).
    assert (0 < 10 ^ Z.of_nat k) as Hq by (apply Z.pow_pos_nonneg; lia).
    assert (10 ^ Z.of_nat (S k) = 10 * 10 ^ Z.of_nat k) as E
      by (rewrite Nat2Z.inj_succ, Z.pow_succ_r; lia).
    rewrite (IH (n mod 10 ^ Z.of_nat (S k))) by (apply Z.mod_pos_bound; lia).
    cbn [String.append]. f_equal; [f_equal|f_equal; [f_equal|do 2 f_equal]].
    + rewrite E, Z.div_div by lia. reflexivity.
    + rewrite E, Z.rem_mul_r by lia.
      rewrite Z.mul_comm, Z.div_add by lia.
      rewrite (Z.div_small (n mod 10)) by (apply Z.mod_pos_bound; lia). reflexivity.
    + rewrite E, Z.rem_mul_r by lia.
      rewrite Z.mul_comm, Z.mod_add by lia. apply Z.mod_mod; lia.
Qed.

(** A number of [S k] digits is printed as its field of that width. *)
Lemma pretty_N_go_zpad (k : nat) (x : N) (s : string) :
  10 ^ Z.of_nat k <= Z.of_N x < 10 ^ Z.of_nat (S k) ->
  pretty_N_go x s = zpad (S k) (Z.of_N x) +:+ s.
Proof.
  revert x s. induction k as [|k IH]; intros x s H.
  - change (10 ^ Z.of_nat 0) with 1 in H. change (10 ^ Z.of_nat 1) with 10 in H.
    rewrite pretty_N_go_step by lia.
    rewrite (N.div_small x 10), (N.mod_small x 10), pretty_N_go_0 by lia.
    rewrite pretty_N_char_digit_char by lia. rewrite zpad_S.
    change (10 ^ Z.of_nat 0) with 1. rewrite Z.div_1_r. reflexivity.
  - assert (0 < 10 ^ Z.of_nat k) as Hq by (apply Z.pow_pos_nonneg; lia).
    rewrite !Nat2Z.inj_succ, !Z.pow_succ_r in H by lia.
    rewrite pretty_N_go_step by lia.
    rewrite IH.
    + rewrite (zpad_snoc (S k)) by (rewrite !Nat2Z.inj_succ, !Z.pow_succ_r by lia; lia).
      rewrite append_assoc. cbn [String.append].
      rewrite pretty_N_char_digit_char by (apply N.mod_lt; lia).
      rewrite N2Z.inj_div, N2Z.inj_mod. reflexivity.
    + rewrite N2Z.inj_div. change (Z.of_N 10) with 10.
      rewrite Nat2Z.inj_succ, Z.pow_succ_r by lia.
      split; [apply Z.div_le_lower_bound; lia | apply Z.div_lt_upper_bound; lia].
Qed.

Lemma pretty_zpad (k : nat) (n : Z) :
  10 ^ Z.of_nat k <= n < 10 ^ Z.of_nat (S k) -> pretty n = zpad (S k) n.
Proof.
  intros H. assert (0 < 10 ^ Z.of_nat k) as Hq by (apply Z.pow_pos_nonneg; lia).
  destruct n as [|p|p]; try lia.
  change (pretty (Z.pos p)) with (pretty_N_go (N.pos p) "").
  rewrite (pretty_N_go_zpad k) by exact H.
  apply append_nil_r.
Qed.

Lemma pad2_zpad (n : Z) : 0 <= n < 100 -> pad2 n = zpad 2 n.
Proof.
  intros H. unfold pad2.
  destruct (Z.ltb_spec n 10) as [Hs | Hl].
  - replace (0 <=? n) with true by (symmetry; apply Z.leb_le; lia). cbn [andb].
    rewrite (zpad_S 1 n). change (10 ^ Z.of_nat 1) with 10.
    rewrite Z.div_small, Z.mod_small by lia.
    destruct (Z.eq_dec n 0) as [-> | Hn]; [reflexivity|].
    rewrite (pretty_zpad 0) by (cbn; lia). reflexivity.
  - rewrite andb_false_r. apply (pretty_zpad 1). cbn. lia.
Qed.

(** The characters of a printed number are digits, after a minus sign for a
    negative one. *)
Lemma pretty_N_go_digits (x : N) :
  exists t, all_chars is_digit t = true /\ forall s, pretty_N_go x s = t +:+ s.
Proof.
  induction (N.lt_wf_0 x) as [x _ IH].
  destruct (N.eq_dec x 0%N) as [-> | Hx].
  - exists EmptyString. split; [reflexivity | intros s; apply pretty_N_go_0].
  - destruct (IH (x `div` 10)%N ltac:(apply N.div_lt; lia)) as (t & Ht & Hgo).
    exists (t +:+ String (pretty_N_char (x `mod` 10)) ""). split.
    + rewrite all_chars_app, Ht. cbn [andb].
      rewrite pretty_N_char_digit_char by (apply N.mod_lt; lia).
      unfold all_chars. cbn [list_ascii_of_string forallb]. rewrite andb_true_r.
      apply digit_char_spec.
      pose proof (N.mod_lt x 10 ltac:(lia)) as Hm. revert Hm. generalize (x `mod` 10)%N. lia.
    + intros s. rewrite pretty_N_go_step, Hgo, append_assoc by lia. reflexivity.
Qed.

Lemma pretty_Z_chars (n : Z) : all_chars is_number_char (pretty n) = true.
Proof.
  assert (forall p, all_chars is_number_char (pretty (N.pos p)) = true) as Hpos.
  { intros p. change (pretty (N.pos p)) with (pretty_N_go (N.pos p) "").
    destruct (pretty_N_go_digits (N.pos p)) as (t & Ht & ->).
    rewrite all_chars_app, andb_true_r. revert Ht. apply all_chars_impl.
    intros c Hc. unfold is_number_char. now rewrite Hc. }
  destruct n as [|p|p].
  - reflexivity.
  - apply Hpos.
  - change (pretty (Z.neg p)) with ("-" +:+ pretty (N.pos p)).
    now rewrite all_chars_app, Hpos.
Qed.

(** ** datetime *)

Lemma days_in_month_le (y m : Z) : days_in_month y m <= 31.
Proof.
  unfold days_in_month.
  destruct (m =? 2); [destruct (is_leap y); lia|].
  destruct ((m =? 4) || (m =? 6) || (m =? 9) || (m =? 11)); lia.
Qed.

Lemma datetime_ok_bounds (d : datetime) :
  datetime_ok d = true ->
  0 <= year d < 10000 /\ 0 <= month d < 100 /\ 0 <= day d < 100 /\
  0 <= hour d < 100 /\ 0 <= minute d < 100 /\ 0 <= second d < 100 /\
  0 <= microsecond d < 1000000.
Proof.
  unfold datetime_ok. rewrite !andb_true_iff, !Z.leb_le.
  pose proof (days_in_month_le (year d) (month d)). lia.
Qed.

Lemma expect_char (c : ascii) (s : string) : expect c (String c "" +:+ s) = Some s.
Proof. unfold expect. cbn [String.append]. now rewrite Ascii.eqb_refl. Qed.

Ltac read_field :=
  rewrite read_zpad by (cbn; lia); cbn [mbind option_bind];
  try (rewrite expect_char; cbn [mbind option_bind]).

Lemma read_date_time_zpad (sep : ascii) (y mo d h mi se : Z) (rest : string) :
  0 <= y < 10000 -> 0 <= mo < 100 -> 0 <= d < 100 ->
  0 <= h < 100 -> 0 <= mi < 100 -> 0 <= se < 100 ->
  read_date_time sep
    (zpad 4 y +:+ "-" +:+ zpad 2 mo +:+ "-" +:+ zpad 2 d +:+
     String sep "" +:+ zpad 2 h +:+ ":" +:+ zpad 2 mi +:+ ":" +:+ zpad 2 se +:+ rest)
  = Some (y, mo, d, h, mi, se, rest).
Proof.
  intros Hy Hmo Hd Hh Hmi Hse. unfold read_date_time.
  do 6 read_field. reflexivity.
Qed.

Lemma fromisoformat_isoformat (d : datetime) :
  datetime_ok d = true -> fromisoformat (isoformat d) = Some d.
Proof.
  intros Hok. destruct (datetime_ok_bounds d Hok) as (Hy & Hmo & Hd & Hh & Hmi & Hse & Hus).
  unfold fromisoformat, isoformat.
  rewrite read_date_time_zpad by assumption. cbn [mbind option_bind].
  destruct d as [y mo dd h mi se us]; cbn [year month day hour minute second microsecond] in *.
  destruct (Z.eqb_spec us 0) as [-> | Hne].
  - cbn [mbind option_bind]. now rewrite Hok.
  - assert (exists c r, "." +:+ zpad 6 us = String c r) as (c & r & E) by (eexists _, _; reflexivity).
    rewrite E, <- E. rewrite expect_char. cbn [mbind option_bind].
    rewrite <- (append_nil_r (zpad 6 us)), read_zpad by (cbn; lia).
    cbn [mbind option_bind]. now rewrite Hok.
Qed.

Lemma wall_clock_ok_spec (d : datetime) :
  wall_clock_ok d = true <-> datetime_ok d = true /\ 1000 <= year d.
Proof. unfold wall_clock_ok. now rewrite andb_true_iff, Z.leb_le. Qed.

(** From the year 1000 on every field has its full width. *)
Lemma strftime_fixed_width (d : datetime) :
  wall_clock_ok d = true ->
  strftime_Ymd_HMS d =
    zpad 4 (year d) +:+ "-" +:+ zpad 2 (month d) +:+ "-" +:+ zpad 2 (day d) +:+
    " " +:+ zpad 2 (hour d) +:+ ":" +:+ zpad 2 (minute d) +:+ ":" +:+ zpad 2 (second d).
Proof.
  intros [Hok Hy1]%wall_clock_ok_spec.
  destruct (datetime_ok_bounds d Hok) as (Hy & Hmo & Hd & Hh & Hmi & Hse & Hus).
  unfold strftime_Ymd_HMS.
  rewrite (pretty_zpad 3) by (cbn; lia). rewrite !pad2_zpad by lia. reflexivity.
Qed.

Lemma strptime_strftime (d : datetime) :
  wall_clock_ok d = true ->
  strptime_Ymd_HMS (strftime_Ymd_HMS d) =
    Some {| year := year d; month := month d; day := day d;
            hour := hour d; minute := minute d; second := second d;
            microsecond := 0 |}.
Proof.
  intros Hw. rewrite strftime_fixed_width by exact Hw.
  apply wall_clock_ok_spec in Hw as [Hok Hy1].
  destruct (datetime_ok_bounds d Hok) as (Hy & Hmo & Hd & Hh & Hmi & Hse & Hus).
  unfold strptime_Ymd_HMS.
  rewrite <- (append_nil_r (zpad 2 (second d))).
  rewrite read_date_time_zpad by assumption. cbn [mbind option_bind].
  assert (datetime_ok {| year := year d; month := month d; day := day d;
            hour := hour d; minute := minute d; second := second d;
            microsecond := 0 |} = true) as ->; [|reflexivity].
  revert Hok. unfold datetime_ok. cbn [year month day hour minute second microsecond].
  rewrite !andb_true_iff, !Z.leb_le. lia.
Qed.

Lemma pad2_chars (n : Z) : all_chars is_number_char (pad2 n) = true.
Proof.
  unfold pad2. destruct ((0 <=? n) && (n <? 10)).
  - now rewrite all_chars_app, pretty_Z_chars.
  - apply pretty_Z_chars.
Qed.

(** Whatever the clock reading, the time is written with digits, minus
    signs, a blank and colons. *)
Lemma strftime_chars (d : datetime) :
  all_chars is_time_char (strftime_Ymd_HMS d) = true.
Proof.
  assert (forall s, all_chars is_number_char s = true -> all_chars is_time_char s = true) as H.
  { intros s. apply all_chars_impl. intros c Hc. unfold is_time_char. now rewrite Hc. }
  unfold strftime_Ymd_HMS. rewrite !all_chars_app.
  repeat (apply andb_true_iff; split);
    first [reflexivity | apply H, pad2_chars | apply H, pretty_Z_chars].
Qed.

Lemma is_time_char_cases (c : ascii) :
  is_time_char c = true -> is_markup c = false /\ in_range 0 127 c = true.
Proof.
  destruct c as [[] [] [] [] [] [] [] []]; vm_compute; intros H; try discriminate H;
    split; reflexivity.
Qed.

Example isoformat_sample :
  isoformat (now sample_world) = "2025-10-17T09:05:42.001500".
Proof. reflexivity. Qed.

Example strftime_sample :
  strftime_Ymd_HMS (now sample_world) = "2025-10-17 09:05:42".
Proof. vm_compute. reflexivity. Qed.

Example strftime_early :
  strftime_Ymd_HMS (now early_world) = "999-12-31 23:59:59" /\
  strptime_Ymd_HMS (strftime_Ymd_HMS (now early_world)) = None.
Proof. vm_compute. split; reflexivity. Qed.

(** ** MarkupSafe *)

Lemma escape_char_safe (c : ascii) : is_markup c = false -> escape_char c = String c "".
Proof.
  unfold is_markup, escape_char. rewrite !orb_false_iff.
  intros ((((-> & ->) & ->) & ->) & ->). reflexivity.
Qed.

Lemma escape_safe (s : string) :
  all_chars (fun c => negb (is_markup c)) s = true -> escape s = s.
Proof.
  unfold all_chars. induction s as [|c s IH]; cbn [list_ascii_of_string forallb escape].
  - reflexivity.
  - rewrite andb_true_iff, negb_true_iff. intros [Hc Hs].
    now rewrite (escape_char_safe c Hc), IH.
Qed.

Lemma escape_strftime (d : datetime) :
  escape (strftime_Ymd_HMS d) = strftime_Ymd_HMS d.
Proof.
  apply escape_safe. generalize (strftime_chars d). apply all_chars_impl.
  intros c Hc. now destruct (is_time_char_cases c Hc) as [-> _].
Qed.

Lemma read_reference_escape_char (c : ascii) (rest : string) :
  is_markup c = true -> read_reference (escape_char c +:+ rest) = Some (c, rest).
Proof.
  unfold is_markup. rewrite !orb_true_iff, !Ascii.eqb_eq.
  intros [[[[-> | ->] | ->] | ->] | ->]; reflexivity.
Qed.

Lemma read_reference_other (c : ascii) (rest : string) :
  is_markup c = false -> read_reference (String c rest) = None.
Proof.
  unfold is_markup. rewrite !orb_false_iff. intros ((((Hc & _) & _) & _) & _).
  rewrite Ascii.eqb_sym in Hc.
  unfold read_reference, references. cbn [read_reference_in strip_prefix].
  now rewrite Hc.
Qed.

Lemma length_append (a b : string) :
  String.length (a +:+ b) = (String.length a + String.length b)%nat.
Proof. induction a as [|c a IH]; cbn [String.append String.length]; [reflexivity | now rewrite IH]. Qed.

Lemma shown_text_go_escape (s : string) (fuel : nat) :
  (String.length (escape s) <= fuel)%nat -> shown_text_go fuel (escape s) = s.
Proof.
  revert fuel. induction s as [|c s IH]; intros fuel Hfuel.
  - destruct fuel; reflexivity.
  - cbn [escape] in *. rewrite length_append in Hfuel.
    destruct (is_markup c) eqn:Hc.
    + assert (1 <= String.length (escape_char c))%nat.
      { revert Hc. unfold is_markup. rewrite !orb_true_iff, !Ascii.eqb_eq.
        intros [[[[-> | ->] | ->] | ->] | ->]; vm_compute; lia. }
      destruct fuel as [|fuel]; [lia|]. cbn [shown_text_go].
      rewrite read_reference_escape_char by exact Hc.
      rewrite IH by lia. reflexivity.
    + rewrite escape_char_safe in * by exact Hc. cbn [String.append String.length] in *.
      destruct fuel as [|fuel]; [lia|]. cbn [shown_text_go].
      rewrite read_reference_other by exact Hc.
      rewrite IH by lia. reflexivity.
Qed.

Lemma shown_text_escape (s : string) : shown_text (escape s) = s.
Proof. apply shown_text_go_escape. lia. Qed.

(** What [escape] returns holds no tag. *)
Lemma escape_is_text (v : string) :
  all_chars (fun c => negb (Ascii.eqb c "<")) (escape v) = true.
Proof.
  induction v as [|c v IH]; [reflexivity|].
  cbn [escape]. rewrite all_chars_app, IH, andb_true_r.
  destruct (is_markup c) eqn:Hc.
  - revert Hc. unfold is_markup. rewrite !orb_true_iff, !Ascii.eqb_eq.
    intros [[[[-> | ->] | ->] | ->] | ->]; reflexivity.
  - rewrite escape_char_safe by exact Hc.
    revert Hc. unfold is_markup. rewrite !orb_false_iff.
    intros ((((_ & Hlt) & _) & _) & _).
    unfold all_chars. cbn [list_ascii_of_string forallb]. now rewrite Hlt.
Qed.

Example escape_sample : escape "a&b <c>" = "a&amp;b &lt;c&gt;".
Proof. reflexivity. Qed.

(** ** The template of the home page *)

Example template_length : String.length HTML_TEMPLATE = 4827%nat.
Proof. reflexivity. Qed.

Lemma lex_template :
  lex (chomp HTML_TEMPLATE) None =
    Some [Text (segment 0); Var "hostname"; Text (segment 2); Var "current_time";
          Text (segment 4); Var "port"; Text (segment 6); Var "environment";
          Text (segment 8)].
Proof. vm_compute. reflexivity. Qed.

Lemma render_home (h t p e : string) :
  render_template_string HTML_TEMPLATE
    (<["environment" := e]> (<["port" := p]> (<["current_time" := t]>
      (<["hostname" := h]> ∅)))) =
  Some (home_html h t p e).
Proof.
  unfold render_template_string, home_html. rewrite lex_template.
  cbn [mbind option_bind render_pieces render_piece].
  repeat (rewrite lookup_insert_eq || rewrite lookup_insert_ne by discriminate).
  cbn [default]. now rewrite append_nil_r.
Qed.

Lemma segment_running : contains "RUNNING" (segment 0).
Proof. apply find_in_spec. vm_compute. reflexivity. Qed.

#[local] Hint Resolve segment_running : substring.

Lemma segment_port_row :
  (exists pre, segment 4 = pre +:+ row_open "Port:") /\
  (exists post, segment 6 = "</span>" +:+ post).
Proof.
  split.
  - exists (String.substring 0
              (String.length (segment 4) - String.length (row_open "Port:")) (segment 4)).
    vm_compute. reflexivity.
  - apply starts_with_spec. vm_compute. reflexivity.
Qed.

Lemma segment_environment_row :
  (exists pre, segment 6 = pre +:+ row_open "Environment:") /\
  (exists post, segment 8 = "</span>" +:+ post).
Proof.
  split.
  - exists (String.substring 0
              (String.length (segment 6) - String.length (row_open "Environment:"))
              (segment 6)).
    vm_compute. reflexivity.
  - apply starts_with_spec. vm_compute. reflexivity.
Qed.

Section HomePage.
Variables h t p e : string.

Lemma page_contains_running : contains "RUNNING" (home_html h t p e).
Proof. unfold home_html. eauto with substring. Qed.

Lemma page_contains_hostname : contains (escape h) (home_html h t p e).
Proof. unfold home_html. eauto with substring. Qed.

Lemma page_contains_time : contains (escape t) (home_html h t p e).
Proof. unfold home_html. eauto 6 with substring. Qed.

Lemma page_displays_port : page_displays "Port:" p (home_html h t p e).
Proof.
  destruct segment_port_row as [[pre Hpre] [post Hpost]].
  exists (segment 0 +:+ escape h +:+ segment 2 +:+ escape t +:+ pre), (escape p),
         (post +:+ escape e +:+ segment 8).
  split; [|split; [apply escape_is_text | apply shown_text_escape]].
  unfold home_html. rewrite Hpre, Hpost, !append_assoc. reflexivity.
Qed.

Lemma page_displays_environment : page_displays "Environment:" e (home_html h t p e).
Proof.
  destruct segment_environment_row as [[pre Hpre] [post Hpost]].
  exists (segment 0 +:+ escape h +:+ segment 2 +:+ escape t +:+ segment 4 +:+
          escape p +:+ pre), (escape e), post.
  split; [|split; [apply escape_is_text | apply shown_text_escape]].
  unfold home_html. rewrite Hpre, Hpost, !append_assoc. reflexivity.
Qed.

End HomePage.

(** ** UTF-8 *)

Lemma utf8_run_app (st : utf8_state) (a b : string) :
  utf8_run st (a +:+ b) =
    match utf8_run st a with
    | Some st' => utf8_run st' b
    | None => None
    end.
Proof.
  revert st. induction a as [|c a IH]; intros st; cbn [String.append utf8_run].
  - reflexivity.
  - destruct (utf8_step st c); [apply IH | reflexivity].
Qed.

(** An ASCII character stands between two characters only. *)
Lemma utf8_step_ascii (st : utf8_state) (c : ascii) :
  in_range 0 127 c = true ->
  utf8_step st c = match st with Boundary => Some Boundary | _ => None end.
Proof.
  destruct c as [[] [] [] [] [] [] [] []]; vm_compute; intros H; try discriminate H;
    destruct st; reflexivity.
Qed.

Lemma is_markup_ascii (c : ascii) : is_markup c = true -> in_range 0 127 c = true.
Proof.
  unfold is_markup. rewrite !orb_true_iff, !Ascii.eqb_eq.
  intros [[[[-> | ->] | ->] | ->] | ->]; reflexivity.
Qed.

Lemma utf8_run_ascii (s : string) :
  all_chars (in_range 0 127) s = true -> utf8_run Boundary s = Some Boundary.
Proof.
  unfold all_chars. induction s as [|c s IH]; cbn [list_ascii_of_string forallb utf8_run].
  - reflexivity.
  - rewrite andb_true_iff. intros [Hc Hs]. now rewrite utf8_step_ascii, IH.
Qed.

Lemma is_utf8_ascii (s : string) : all_chars (in_range 0 127) s = true -> is_utf8 s = true.
Proof. intros H. unfold is_utf8. now rewrite utf8_run_ascii. Qed.

(** Escaping replaces ASCII characters by ASCII characters. *)
Lemma utf8_run_escape (st : utf8_state) (v : string) :
  utf8_run st (escape v) = utf8_run st v.
Proof.
  revert st. induction v as [|c v IH]; intros st; [reflexivity|].
  cbn [escape]. destruct (is_markup c) eqn:Hc.
  - rewrite utf8_run_app. cbn [utf8_run].
    rewrite (utf8_step_ascii st c) by now apply is_markup_ascii.
    destruct st; try (revert Hc; unfold is_markup; rewrite !orb_true_iff, !Ascii.eqb_eq;
      intros [[[[-> | ->] | ->] | ->] | ->]; reflexivity).
    rewrite <- IH.
    revert Hc. unfold is_markup. rewrite !orb_true_iff, !Ascii.eqb_eq.
    intros [[[[-> | ->] | ->] | ->] | ->]; reflexivity.
  - rewrite escape_char_safe by exact Hc. cbn [String.append utf8_run].
    destruct (utf8_step st c); [apply IH | reflexivity].
Qed.

(** A value between two literal parts of a page: the page is UTF-8 exactly
    when the value and what follows it are. *)
Lemma is_utf8_value (v t rest : string) :
  starts_with "<" t = true -> utf8_run Boundary t = Some Boundary ->
  is_utf8 (escape v +:+ t +:+ rest) = is_utf8 v && is_utf8 rest.
Proof.
  intros Ht Hrun. unfold is_utf8.
  rewrite utf8_run_app, utf8_run_escape.
  destruct (utf8_run Boundary v) as [st|]; [|reflexivity].
  rewrite utf8_run_app.
  destruct t as [|c t]; [discriminate Ht|]. cbn [starts_with] in Ht.
  destruct (Ascii.eqb_spec "<" c) as [<- | ]; [|discriminate Ht].
  destruct st; try reflexivity.
  rewrite Hrun. reflexivity.
Qed.

Lemma segments_utf8 :
  utf8_run Boundary (segment 0) = Some Boundary /\
  (starts_with "<" (segment 2) = true /\ utf8_run Boundary (segment 2) = Some Boundary) /\
  (starts_with "<" (segment 4) = true /\ utf8_run Boundary (segment 4) = Some Boundary) /\
  (starts_with "<" (segment 6) = true /\ utf8_run Boundary (segment 6) = Some Boundary) /\
  (starts_with "<" (segment 8) = true /\ utf8_run Boundary (segment 8) = Some Boundary).
Proof. vm_compute. repeat split. Qed.

(** The home page is UTF-8 exactly when its four values are. *)
Lemma is_utf8_home_html (h t p e : string) :
  is_utf8 (home_html h t p e) = is_utf8 h && is_utf8 t && is_utf8 p && is_utf8 e.
Proof.
  destruct segments_utf8 as (H0 & [S2 H2] & [S4 H4] & [S6 H6] & [S8 H8]).
  unfold home_html.
  assert (forall x, is_utf8 (segment 0 +:+ x) = is_utf8 x) as E0.
  { intros x. unfold is_utf8. now rewrite utf8_run_app, H0. }
  rewrite E0, is_utf8_value, is_utf8_value, is_utf8_value by assumption.
  rewrite <- (append_nil_r (segment 8)), is_utf8_value by assumption.
  change (is_utf8 "") with true. now rewrite andb_true_r, !andb_assoc.
Qed.

Lemma is_utf8_strftime (d : datetime) : is_utf8 (strftime_Ymd_HMS d) = true.
Proof.
  apply is_utf8_ascii. generalize (strftime_chars d). apply all_chars_impl.
  intros c Hc. now destruct (is_time_char_cases c Hc) as [_ ->].
Qed.

Lemma is_utf8_page (w : World) :
  is_utf8 (home_html (gethostname w) (strftime_Ymd_HMS (now w))
             (getenv (environ w) "PORT" "5000")
             (getenv (environ w) "ENVIRONMENT" "production")) = text_ok w.
Proof.
  rewrite is_utf8_home_html, is_utf8_strftime, andb_true_r. reflexivity.
Qed.

Example is_utf8_samples :
  is_utf8 "staging" = true /\ is_utf8 "❤️" = true /\ is_utf8 "Zürich" = true /\
  is_utf8 (String (chr 255) "") = false /\
  is_utf8 (String (chr 195) "") = false /\
  is_utf8 (String (chr 192) (String (chr 128) "")) = false /\
  is_utf8 (String (chr 237) (String (chr 160) (String (chr 128) ""))) = false.
Proof. vm_compute. repeat split. Qed.

(** ** Dictionaries *)

Ltac dict_lookup :=
  unfold dict; cbn [foldl fst snd];
  repeat (rewrite lookup_insert_eq || rewrite lookup_insert_ne by discriminate);
  try reflexivity.

(** ** Routing *)


Lemma find_rule_Some (rules : list rule) (m p : string) (r : rule) (arg : string) :
  find_rule rules m p = Some (r, arg) ->
  r ∈ rules /\ m ∈ methods r /\ match_pattern (rule_pattern r) p = Some arg.
Proof.
  induction rules as [|r' rules IH]; cbn [find_rule]; [discriminate|].
  destruct (match_pattern (rule_pattern r') p) as [arg'|] eqn:E.
  - destruct (bool_decide_reflect (m ∈ methods r')) as [Hin | Hout].
    + intros [= <- <-]. split; [left | split; assumption].
    + intros H. destruct (IH H) as (? & ? & ?). split; [now right | now split].
  - intros H. destruct (IH H) as (? & ? & ?). split; [now right | now split].
Qed.

(** Every rule of the application allows GET, HEAD and OPTIONS. *)
Lemma routes_methods (r : rule) : r ∈ routes -> methods r = default_methods.
Proof.
  intros Hr%list_elem_of_In. unfold routes in Hr. cbn [In] in Hr.
  destruct Hr as [<- | [<- | [<- | [<- | [<- | []]]]]]; reflexivity.
Qed.

Lemma find_rule_not_allowed (m p : string) :
  m ∉ default_methods -> find_rule routes m p = None.
Proof.
  intros Hm. destruct (find_rule routes m p) as [[r arg]|] eqn:E; [|reflexivity].
  apply find_rule_Some in E as (Hr & Hin & _).
  rewrite (routes_methods r Hr) in Hin. contradiction.
Qed.


Lemma last_char (q : string) (c : ascii) :
  String.get (String.length q) (q +:+ String c "") = Some c.
Proof. induction q as [|x q IH]; [reflexivity | exact IH]. Qed.

(** Of the rules of the application only the rule of the home page ends in
    a slash: the empty path is the only one to which a slash is added. *)
Lemma slash_required_routes (m p : string) :
  slash_required routes m p = (String.eqb p "" && bool_decide (m ∈ default_methods)).
Proof.
  assert (forall s, String.get (Nat.pred (String.length s)) s <> Some "/"%char ->
                    String.eqb s (p +:+ "/") = false) as Hlast.
  { intros s Hs. apply String.eqb_neq. intros ->. apply Hs.
    rewrite length_append. cbn [String.length]. rewrite Nat.add_1_r. apply last_char. }
  unfold slash_required, routes.
  cbn [existsb rule_pattern static_rule route methods].
  rewrite !(Hlast "/api/health"), !(Hlast "/api/info"), !(Hlast "/api/status")
    by (vm_compute; discriminate).
  cbn [andb orb]. rewrite orb_false_r. f_equal.
  destruct p as [|c p]; [reflexivity|].
  cbn [String.append]. apply String.eqb_neq. intros [= <- H]. destruct p; discriminate H.
Qed.



(** The application has five rules: the static rule and the four routes. *)
Lemma routes_count : length routes = 5%nat.
Proof. reflexivity. Qed.

Lemma defined_route_iff (p : string) :
  defined_route p = true <->
  p = "/" \/ p = "/api/health" \/ p = "/api/info" \/ p = "/api/status" \/
  is_Some (match_pattern (PathUnder "/static/") p).
Proof.
  unfold defined_route, path_matches, routes. cbn [existsb rule_pattern static_rule route].
  rewrite orb_false_r, !orb_true_iff, !bool_decide_eq_true.
  cbn [match_pattern].
  assert (forall q, is_Some (if String.eqb q p then Some EmptyString else None) <-> p = q)
    as Hq.
  { intros q. destruct (String.eqb_spec q p) as [-> | Hne].
    - split; [reflexivity | now eexists].
    - split; [intros [? [=]] | congruence]. }
  rewrite !Hq. tauto.
Qed.

(** What the router answers to a request for the application. *)
Lemma match_rules_routes (m p : string) :
  match_rules routes m p =
    match find_rule routes m p with
    | Some (r, arg) => Found r arg
    | None =>
        if String.eqb p "" && bool_decide (m ∈ default_methods) then SlashRequired
        else NoRule
    end.
Proof. unfold match_rules. now rewrite slash_required_routes. Qed.


(** A method that the rules do not allow, on the path of a route. *)
Lemma match_request_not_allowed (m p : string) :
  m ∉ default_methods -> defined_route (path_part p) = true ->
  match_request routes m p = MethodNotAllowed.
Proof.
  intros Hm Hp. unfold match_request. rewrite !match_rules_routes.
  rewrite !find_rule_not_allowed by exact Hm.
  rewrite !bool_decide_eq_false_2, !andb_false_r by exact Hm.
  unfold defined_route in Hp. now rewrite Hp.
Qed.

(** ** Dispatch *)

Lemma wsgi_app_matched (a : Flask) (w : World) (req : request) (r : rule) (arg : string) :
  match_request (url_map a) (upper (method req)) (path req) = Matched r arg ->
  upper (method req) <> "OPTIONS" ->
  wsgi_app a w req =
    match full_dispatch_request r w arg with
    | Returned resp => Returned resp
    | Raised (HTTPException code) => Returned (handle_http_exception a code)
    | Raised (Unhandled error) => handle_exception a error
    end.
Proof.
  intros Hm Hopt. unfold wsgi_app. rewrite Hm.
  destruct (String.eqb_spec (upper (method req)) "OPTIONS"); [contradiction | reflexivity].
Qed.



(** A view function that returns decides the answer. *)
Lemma run_wsgi_returned (a : Flask) (w : World) (req : request) (resp : response) :
  wsgi_app a w req = Returned resp -> run_wsgi a w req = resp.
Proof. intros H. unfold run_wsgi, served_app. rewrite H. now destruct (debug a). Qed.

(** The answer to a fault of a handler. *)
Lemma run_wsgi_fault (a : Flask) (w : World) (req : request) (error : string) :
  handler_fault (url_map a) w req error ->
  run_wsgi a w req =
    if debug a then debugger_response error else handle_http_exception a 500.
Proof.
  intros (r & arg & Hm & Hopt & Hraise). unfold run_wsgi, served_app.
  rewrite (wsgi_app_matched a w req r arg Hm Hopt), Hraise.
  unfold handle_exception. now destruct (debug a).
Qed.


Section Routes.
Variables (d : bool) (w : World).

Lemma GET_returned (p name : string) (f : World -> result return_value)
    (rv : return_value) (resp : response) :
  match_request routes "GET" p = Matched (route p name f) EmptyString ->
  f w = Returned rv -> make_response rv = Returned resp ->
  run_wsgi (app d) w (GET p) = resp.
Proof.
  intros Hm Hf Hrv. apply run_wsgi_returned.
  rewrite (wsgi_app_matched (app d) w (GET p) (route p name f) EmptyString Hm)
    by discriminate.
  unfold full_dispatch_request. cbn [view_func route]. now rewrite Hf, Hrv.
Qed.

Lemma GET_status :
  run_wsgi (app d) w (GET "/api/status") =
    json_response 200 (dict [("status", JStr "ok");
                             ("message", JStr "Application is running successfully")]).
Proof. eapply (GET_returned "/api/status" "status" status); reflexivity. Qed.

Lemma GET_health :
  run_wsgi (app d) w (GET "/api/health") =
    json_response 200 (dict [("status", JStr "healthy");
                             ("timestamp", JStr (isoformat (now w)));
                             ("service", JStr "hng13-devops-stage1");
                             ("version", JStr "1.0.0")]).
Proof. eapply (GET_returned "/api/health" "health" health); reflexivity. Qed.

Lemma GET_info :
  run_wsgi (app d) w (GET "/api/info") =
    json_response 200
      (dict [("application", JStr "HNG13 DevOps Stage 1");
             ("hostname", JStr (gethostname w));
             ("timestamp", JStr (isoformat (now w)));
             ("port", JStr (getenv (environ w) "PORT" "5000"));
             ("environment", JStr (getenv (environ w) "ENVIRONMENT" "production"));
             ("python_version", JStr (sys_version w));
             ("status", JStr "running")]).
Proof. eapply (GET_returned "/api/info" "info" info); reflexivity. Qed.

Lemma home_returns :
  home w = Returned (Str (home_html (gethostname w) (strftime_Ymd_HMS (now w))
                            (getenv (environ w) "PORT" "5000")
                            (getenv (environ w) "ENVIRONMENT" "production"))).
Proof. unfold home. now rewrite render_home. Qed.

(** The home page, when its values can be encoded. *)
Lemma GET_home :
  text_ok w = true ->
  run_wsgi (app d) w (GET "/") =
    {| status_code := 200; mimetype := "text/html";
       data := Html (home_html (gethostname w) (strftime_Ymd_HMS (now w))
                       (getenv (environ w) "PORT" "5000")
                       (getenv (environ w) "ENVIRONMENT" "production")) |}.
Proof.
  intros Hok. eapply (GET_returned "/" "home" home); [reflexivity | apply home_returns |].
  unfold make_response. now rewrite is_utf8_page, Hok.
Qed.

(** A request for the home page whose values cannot be encoded is a fault of
    the handler. *)
Lemma home_fault (m : string) :
  upper m = "GET" \/ upper m = "HEAD" -> text_ok w = false ->
  handler_fault routes w {| method := m; path := "/" |} "UnicodeEncodeError".
Proof.
  intros Hm Hbad. exists (route "/" "home" home), EmptyString. cbn [method path].
  split; [|split].
  - destruct Hm as [-> | ->]; reflexivity.
  - destruct Hm as [-> | ->]; discriminate.
  - unfold full_dispatch_request. cbn [view_func route]. rewrite home_returns.
    unfold make_response. now rewrite is_utf8_page, Hbad.
Qed.

Lemma GET_home_fault :
  text_ok w = false ->
  run_wsgi (app d) w (GET "/") =
    if d then debugger_response "UnicodeEncodeError" else internal_error (HTTPException 500).
Proof.
  intros Hbad.
  rewrite (run_wsgi_fault (app d) w (GET "/") "UnicodeEncodeError")
    by (apply (home_fault "GET"); [now left | exact Hbad]).
  reflexivity.
Qed.

Lemma info_displays_getenv :
  info_displays_environment d w (getenv (environ w) "ENVIRONMENT" "production").
Proof. eexists. rewrite GET_info. split; [reflexivity | dict_lookup]. Qed.

Lemma home_displays_getenv :
  text_ok w = true ->
  home_displays_environment d w (getenv (environ w) "ENVIRONMENT" "production").
Proof.
  intros Hok. eexists. rewrite GET_home by exact Hok.
  split; [reflexivity | apply page_displays_environment].
Qed.

End Routes.

(** ** Start-up *)

Lemma main_port (env : gmap string string) (n : Z) :
  match env !! "PORT" with Some s => python_int s | None => IntValue 5000 end = IntValue n ->
  main env =
    AppRun [ "Starting HNG13 DevOps Application...";
             "Running on port " +:+ pretty n;
             "Debug mode: " +:+
               python_str_bool (String.eqb (lower (getenv env "DEBUG" "False")) "true") ]
           "0.0.0.0" n (String.eqb (lower (getenv env "DEBUG" "False")) "true").
Proof. intros H. unfold main. now rewrite H. Qed.

Example python_int_samples :
  python_int "8080" = IntValue 8080 /\ python_int " +80_80 " = IntValue 8080 /\
  python_int "0080" = IntValue 80 /\ python_int "-1" = IntValue (-1) /\
  python_int "" = IntValueError /\ python_int "80 80" = IntValueError /\
  python_int "8080/tcp" = IntValueError /\
  python_int (String (chr 28) "80") = IntValueError /\
  python_int (String (chr 9) "80") = IntValue 80 /\
  python_int "٨٠٨٠" = IntByUnicodeData.
Proof. repeat split; reflexivity. Qed.

(** A port that is no integer literal ends the start-up. *)
Example main_port_http : main {[ "PORT" := "http" ]} = Died "ValueError".
Proof. reflexivity. Qed.

Lemma main_flag (env : gmap string string) (out : list string) (host : string)
    (port : Z) (flag : bool) :
  main env = AppRun out host port flag ->
  flag = String.eqb (lower (getenv env "DEBUG" "False")) "true".
Proof.
  unfold main.
  destruct (match env !! "PORT" with Some s => python_int s | None => IntValue 5000 end);
    try discriminate.
  now intros [= _ _ _ <-].
Qed.

Lemma pretty_N_char_digit (m : N) :
  (m < 10)%N ->
  is_digit (pretty_N_char m) = true /\ digit_val (pretty_N_char m) = Z.of_N m.
Proof.
  intros H. rewrite pretty_N_char_digit_char by exact H.
  apply digit_char_spec. lia.
Qed.

Lemma is_digit_plain (c : ascii) :
  is_digit c = true ->
  is_c_space c = false /\ Ascii.eqb c "-" = false /\ Ascii.eqb c "+" = false.
Proof.
  destruct c as [[] [] [] [] [] [] [] []]; vm_compute; intros H; try discriminate H;
    repeat split.
Qed.

Lemma is_ascii_pretty (n : Z) : is_ascii (pretty n) = true.
Proof.
  unfold is_ascii. generalize (pretty_Z_chars n). apply all_chars_impl.
  intros c Hc. apply is_time_char_cases. unfold is_time_char. now rewrite Hc.
Qed.

(** Reading the decimal digits of [x] continues the number read so far. *)
Lemma int_digits_pretty_go (x : N) :
  (0 < x)%N ->
  exists k : nat,
    (forall j : nat, Z.of_N x < 10 ^ Z.of_nat j -> (k <= j)%nat) /\
    (forall s, exists c rest, pretty_N_go x s = String c rest /\ is_digit c = true) /\
    forall s acc seen after_digit,
      int_digits (pretty_N_go x s) acc seen after_digit =
        int_digits s (acc * 10 ^ Z.of_nat k + Z.of_N x) (seen + k) true.
Proof.
  induction (N.lt_wf_0 x) as [x _ IH]. intros Hx.
  assert (x `mod` 10 < 10)%N as Hm by (apply N.mod_lt; lia).
  destruct (pretty_N_char_digit _ Hm) as [Hd Hv].
  pose proof (N.div_mod x 10 ltac:(lia)) as Hdm.
  assert (x < 10 \/ 10 <= x)%N as [Hs | Hl] by lia.
  - exists 1%nat.
    assert (x `div` 10 = 0)%N as Hq by (apply N.div_small; lia).
    split; [|split].
    + intros [|j] Hj; [cbn in Hj; lia | lia].
    + intros s. rewrite pretty_N_go_step, Hq, pretty_N_go_0 by lia. now eexists _, _.
    + intros s acc seen ad. rewrite pretty_N_go_step, Hq, pretty_N_go_0 by lia.
      cbn [int_digits]. rewrite Hd, Hv, N.mod_small by lia. f_equal; lia.
  - assert (0 < x `div` 10)%N as Hq by (apply N.div_str_pos; lia).
    destruct (IH (x `div` 10)%N ltac:(apply N.div_lt; lia) Hq) as (k & Hk & Hc & Hgo).
    exists (S k). split; [|split].
    + intros [|j] Hj; [cbn in Hj; lia|].
      apply le_n_S, Hk. rewrite Nat2Z.inj_succ, Z.pow_succ_r in Hj by lia.
      rewrite N2Z.inj_div. apply Z.div_lt_upper_bound; lia.
    + intros s. rewrite pretty_N_go_step by lia. apply Hc.
    + intros s acc seen ad. rewrite pretty_N_go_step, Hgo by lia.
      cbn [int_digits]. rewrite Hd, Hv.
      rewrite Nat2Z.inj_succ, Z.pow_succ_r by lia.
      f_equal; [|lia]. rewrite N2Z.inj_div, N2Z.inj_mod.
      pose proof (Z.div_mod (Z.of_N x) 10 ltac:(lia)). change (Z.of_N 10) with 10. nia.
Qed.

(** [int] reads the decimal form of a number back. *)
Lemma python_int_pretty (n : Z) (j : nat) :
  0 <= n < 10 ^ Z.of_nat j -> (j <= max_str_digits)%nat ->
  python_int (pretty n) = IntValue n.
Proof.
  intros [H0 Hn] Hj. unfold python_int. rewrite is_ascii_pretty.
  destruct n as [|p|p]; [reflexivity | | lia].
  change (pretty (Z.pos p)) with (pretty_N_go (N.pos p) "").
  destruct (int_digits_pretty_go (N.pos p) ltac:(lia)) as (k & Hk & Hc & Hgo).
  destruct (Hc "") as (c & rest & E & Hd). destruct (is_digit_plain c Hd) as (Hs & Hm & Hp).
  rewrite E. cbn [lstrip]. rewrite Hs, Hm, Hp, <- E, Hgo.
  cbn [int_digits andb]. specialize (Hk j Hn).
  destruct (Nat.leb_spec (0 + k) max_str_digits); [|lia].
  now rewrite Z.mul_0_l.
Qed.

Lemma is_space_cases (c : ascii) :
  is_space c = true ->
  in_range 0 127 c = true /\
  (is_c_space c = true \/
   is_c_space c = false /\ is_digit c = false /\ Ascii.eqb c "_" = false /\
   Ascii.eqb c "-" = false /\ Ascii.eqb c "+" = false).
Proof.
  destruct c as [[] [] [] [] [] [] [] []]; vm_compute; intros H; try discriminate H;
    (split; [reflexivity|]); (now left) || (right; repeat split).
Qed.

(** A string of white space is no integer literal: what [int] does not skip
    of it, a separator from 28 to 31, is no digit. *)
Lemma python_int_blank (s : string) :
  all_chars is_space s = true -> python_int s = IntValueError.
Proof.
  intros Hs. unfold python_int.
  assert (is_ascii s = true) as ->.
  { revert Hs. apply all_chars_impl. intros c Hc. now apply is_space_cases. }
  revert Hs. unfold all_chars.
  induction s as [|c s IH]; cbn [list_ascii_of_string forallb lstrip]; [reflexivity|].
  rewrite andb_true_iff. intros [Hc Hs].
  destruct (is_space_cases c Hc) as [_ [-> | (Hsp & Hd & Hu & Hm & Hp)]]; [now apply IH|].
  rewrite Hsp, Hm, Hp. cbn [int_digits]. now rewrite Hd, Hu, Hsp.
Qed.

Lemma lower_char_letter (c x : ascii) :
  (97 <= ord x <= 122)%nat ->
  lower_char c = x <-> c = x \/ c = chr (ord x - 32).
Proof.
  intros Hx. unfold lower_char, ord, chr in *.
  pose proof (nat_ascii_bounded c) as Hc.
  destruct ((65 <=? nat_of_ascii c)%nat && (nat_of_ascii c <=? 90)%nat) eqn:E.
  - apply andb_true_iff in E as [E1%Nat.leb_le E2%Nat.leb_le]. split.
    + intros <-. right. rewrite nat_ascii_embedding by lia.
      replace (nat_of_ascii c + 32 - 32)%nat with (nat_of_ascii c) by lia.
      now rewrite ascii_nat_embedding.
    + intros [-> | ->]; [lia|].
      rewrite nat_ascii_embedding by lia.
      replace (nat_of_ascii x - 32 + 32)%nat with (nat_of_ascii x) by lia.
      now rewrite ascii_nat_embedding.
  - split; [now left|]. intros [-> | ->]; [reflexivity|].
    rewrite nat_ascii_embedding in E by lia.
    apply andb_false_iff in E as [E%Nat.leb_gt | E%Nat.leb_gt]; lia.
Qed.

(** The values that lowercase to "true" are its sixteen spellings. *)
Lemma lower_true_spellings (v : string) :
  lower v = "true" <->
  exists a b c e, v = String a (String b (String c (String e ""))) /\
    (a = "t" \/ a = "T")%char /\ (b = "r" \/ b = "R")%char /\
    (c = "u" \/ c = "U")%char /\ (e = "e" \/ e = "E")%char.
Proof.
  split.
  - destruct v as [|a [|b [|c [|e [|? ?]]]]]; try discriminate.
    cbn [lower]. intros [= Ha Hb Hc He].
    exists a, b, c, e. split; [reflexivity|].
    apply lower_char_letter in Ha, Hb, Hc, He; try (vm_compute; lia).
    repeat split; assumption.
  - intros (a & b & c & e & -> & Ha & Hb & Hc & He). cbn [lower].
    repeat f_equal; apply lower_char_letter; try (vm_compute; lia); assumption.
Qed.

(** * The route contract *)

(** C1. For every request, whatever the environment variables, the host name
    and the clock are, GET /api/status answers HTTP 200 with the JSON object
    {"status": "ok", "message": "Application is running successfully"} and
    nothing else in it. *)
Theorem status_always_ok (d : bool) (w : World) :
  run_wsgi (app d) w (GET "/api/status") =
    {| status_code := 200; mimetype := "application/json";
       data := Json {[ "status" := JStr "ok";
                       "message" := JStr "Application is running successfully" ]} |}.
Proof.
  rewrite GET_status. unfold json_response, dict. cbn [foldl fst snd].
  do 2 f_equal.
Qed.

(** C2, as stated, fails: the body of GET /api/info has no key
    "runtime_version", so its key set is not the one the claim lists. *)
Lemma info_has_no_runtime_version :
  exists body,
    run_wsgi (app false) sample_world (GET "/api/info") = json_response 200 body /\
    body !! "runtime_version" = None /\
    dom body <> ({[ "application"; "hostname"; "timestamp"; "port"; "environment";
                    "runtime_version"; "status" ]} : gset string).
Proof.
  eexists. split; [apply GET_info|]. split.
  { dict_lookup. }
  intros H.
  assert ("runtime_version" ∈ ({[ "application"; "hostname"; "timestamp"; "port";
            "environment"; "runtime_version"; "status" ]} : gset string)) as Hin
    by set_solver.
  rewrite <- H in Hin. apply elem_of_dom in Hin as [v Hv].
  revert Hv. dict_lookup. rewrite lookup_empty. discriminate.
Qed.

(** C2, amended. For every request, GET /api/info answers HTTP 200 with a JSON
    object whose key set is exactly {application, hostname, timestamp, port,
    environment, python_version, status} and whose status field is
    "running". *)
Theorem info_keys (d : bool) (w : World) :
  exists body,
    run_wsgi (app d) w (GET "/api/info") =
      {| status_code := 200; mimetype := "application/json"; data := Json body |} /\
    dom body = {[ "application"; "hostname"; "timestamp"; "port"; "environment";
                  "python_version"; "status" ]} /\
    body !! "status" = Some (JStr "running").
Proof.
  eexists. split; [apply GET_info|]. split; [|dict_lookup].
  unfold dict. cbn [foldl fst snd]. rewrite !dom_insert_L, dom_empty_L. set_solver.
Qed.

(** C3. For every request, GET /api/health answers HTTP 200 with a JSON body
    whose status is "healthy", whose service is "hng13-devops-stage1", whose
    version is "1.0.0", and whose timestamp is an ISO-8601 string: parsing it
    gives back the clock reading. *)
Theorem health_reports_healthy (d : bool) (w : World) :
  datetime_ok (now w) = true ->
  exists body timestamp,
    run_wsgi (app d) w (GET "/api/health") =
      {| status_code := 200; mimetype := "application/json"; data := Json body |} /\
    body !! "status" = Some (JStr "healthy") /\
    body !! "service" = Some (JStr "hng13-devops-stage1") /\
    body !! "version" = Some (JStr "1.0.0") /\
    body !! "timestamp" = Some (JStr timestamp) /\
    fromisoformat timestamp = Some (now w).
Proof.
  intros Hok. eexists _, (isoformat (now w)). split; [apply GET_health|].
  repeat split; try dict_lookup.
  now apply fromisoformat_isoformat.
Qed.

Lemma health_reports_healthy_witness :
  exists body timestamp,
    run_wsgi (app false) sample_world (GET "/api/health") =
      {| status_code := 200; mimetype := "application/json"; data := Json body |} /\
    body !! "status" = Some (JStr "healthy") /\
    body !! "service" = Some (JStr "hng13-devops-stage1") /\
    body !! "version" = Some (JStr "1.0.0") /\
    body !! "timestamp" = Some (JStr timestamp) /\
    fromisoformat timestamp = Some (now sample_world).
Proof. apply (health_reports_healthy false sample_world). reflexivity. Defined.







(** C6, as stated, fails in three ways. The host name is escaped before it
    is put in the page, so a host name with an ampersand is not in the body
    as it is. A year below 1000 is printed without leading zeros, so the
    time is not in the form YYYY-MM-DD HH:MM:SS. And when the host name, PORT
    or ENVIRONMENT holds a byte that is not UTF-8, the answer is not 200 but
    the 500 of the fault handler. *)
Lemma home_page_falls_short :
  (exists html,
     run_wsgi (app false) ampersand_world (GET "/") =
       {| status_code := 200; mimetype := "text/html"; data := Html html |} /\
     ~ contains (gethostname ampersand_world) html /\
     contains "a&amp;b" html) /\
  (exists html,
     run_wsgi (app false) early_world (GET "/") =
       {| status_code := 200; mimetype := "text/html"; data := Html html |} /\
     datetime_ok (now early_world) = true /\
     contains ">999-12-31 23:59:59<" html /\
     ~ contains "0999-12-31 23:59:59" html /\
     strptime_Ymd_HMS "999-12-31 23:59:59" = None) /\
  (datetime_ok (now garbled_world) = true /\
   run_wsgi (app false) garbled_world (GET "/") =
     {| status_code := 500; mimetype := "application/json";
        data := Json {[ "error" := JStr "Internal Server Error";
                        "message" := JStr "An unexpected error occurred";
                        "status" := JInt 500 ]} |}).
Proof.
  split; [|split].
  - eexists. split; [now apply GET_home|]. split.
    + rewrite <- find_in_spec. vm_compute. discriminate.
    + rewrite <- find_in_spec. vm_compute. reflexivity.
  - eexists. split; [now apply GET_home|]. split; [reflexivity|]. split; [|split].
    + rewrite <- find_in_spec. vm_compute. reflexivity.
    + rewrite <- find_in_spec. vm_compute. discriminate.
    + reflexivity.
  - split; [reflexivity|]. rewrite (GET_home_fault false garbled_world) by reflexivity.
    unfold internal_error, jsonify, dict. cbn [foldl fst snd]. do 2 f_equal.
Qed.

(** C6, amended. For every request, provided that the host name and the
    values of PORT and ENVIRONMENT are well-formed UTF-8, GET / answers
    HTTP 200 with an HTML body that contains the literal string RUNNING, the
    HTML-escaped host name (the host name itself when it has none of the
    characters that are escaped), and the wall-clock time as the page's
    clock prints it, which from the year 1000 on is the form
    YYYY-MM-DD HH:MM:SS: parsing it gives back the clock reading to the
    second. When one of the three values is not UTF-8, the answer is HTTP 500:
    the JSON of the fault handler, or the debugger's page in debug mode. *)
Theorem home_page_contents (d : bool) (w : World) :
  (text_ok w = true ->
   exists html,
     run_wsgi (app d) w (GET "/") =
       {| status_code := 200; mimetype := "text/html"; data := Html html |} /\
     contains "RUNNING" html /\
     contains (escape (gethostname w)) html /\
     (all_chars (fun c => negb (is_markup c)) (gethostname w) = true ->
      contains (gethostname w) html) /\
     contains (strftime_Ymd_HMS (now w)) html /\
     (wall_clock_ok (now w) = true ->
      strptime_Ymd_HMS (strftime_Ymd_HMS (now w)) =
        Some {| year := year (now w); month := month (now w); day := day (now w);
                hour := hour (now w); minute := minute (now w);
                second := second (now w); microsecond := 0 |})) /\
  (text_ok w = false ->
   run_wsgi (app d) w (GET "/") =
     if d then debugger_response "UnicodeEncodeError"
     else internal_error (HTTPException 500)).
Proof.
  split; [|apply GET_home_fault].
  intros Hok. eexists. split; [now apply GET_home|].
  split; [apply page_contains_running|].
  split; [apply page_contains_hostname|].
  split.
  { intros Hsafe. rewrite <- (escape_safe _ Hsafe) at 1. apply page_contains_hostname. }
  split; [|apply strptime_strftime].
  rewrite <- (escape_strftime (now w)) at 1. apply page_contains_time.
Qed.

Lemma home_page_contents_witness :
  (exists html,
     run_wsgi (app false) sample_world (GET "/") =
       {| status_code := 200; mimetype := "text/html"; data := Html html |} /\
     contains "RUNNING" html /\
     contains (escape (gethostname sample_world)) html /\
     (all_chars (fun c => negb (is_markup c)) (gethostname sample_world) = true ->
      contains (gethostname sample_world) html) /\
     contains (strftime_Ymd_HMS (now sample_world)) html /\
     (wall_clock_ok (now sample_world) = true ->
      strptime_Ymd_HMS (strftime_Ymd_HMS (now sample_world)) =
        Some {| year := 2025; month := 10; day := 17;
                hour := 9; minute := 5; second := 42; microsecond := 0 |})) /\
  run_wsgi (app false) garbled_world (GET "/") =
    (if false then debugger_response "UnicodeEncodeError"
     else internal_error (HTTPException 500)).
Proof.
  split.
  - apply (proj1 (home_page_contents false sample_world)). reflexivity.
  - apply (proj2 (home_page_contents false garbled_world)). reflexivity.
Defined.

(** C7, as stated, fails for the home page: with ENVIRONMENT set to a byte
    that is not UTF-8, GET /api/info shows the value, but GET / is answered
    with the 500 of the fault handler and shows nothing. *)
Lemma garbled_environment_is_not_displayed :
  environ garbled_world !! "ENVIRONMENT" = Some (String (chr 255) "") /\
  info_displays_environment false garbled_world (String (chr 255) "") /\
  status_code (run_wsgi (app false) garbled_world (GET "/")) = 500 /\
  ~ home_displays_environment false garbled_world (String (chr 255) "").
Proof.
  split; [reflexivity|]. split.
  { apply (info_displays_getenv false garbled_world). }
  unfold home_displays_environment.
  rewrite (GET_home_fault false garbled_world) by reflexivity.
  split; [reflexivity|]. intros (html & H & _). discriminate H.
Qed.

(** C7, amended. For every value v of ENVIRONMENT, GET /api/info has v in its
    environment field, and the home page shows v in its Environment row
    provided that v, the host name and the value of PORT are well-formed
    UTF-8; when ENVIRONMENT is not set, both show "production", the home
    page under the same proviso for the host name and PORT. *)
Theorem environment_is_displayed (d : bool) (w : World) :
  (forall v, environ w !! "ENVIRONMENT" = Some v ->
     info_displays_environment d w v /\
     (text_ok w = true -> home_displays_environment d w v)) /\
  (environ w !! "ENVIRONMENT" = None ->
     info_displays_environment d w "production" /\
     (text_ok w = true -> home_displays_environment d w "production")).
Proof.
  pose proof (info_displays_getenv d w) as Hi.
  pose proof (home_displays_getenv d w) as Hh. unfold getenv in Hi, Hh.
  split; [intros v Hv | intros Hv]; rewrite Hv in Hi, Hh; split; assumption.
Qed.

Lemma environment_is_displayed_witness :
  (info_displays_environment false sample_world "staging" /\
   home_displays_environment false sample_world "staging") /\
  (info_displays_environment false ampersand_world "production" /\
   home_displays_environment false ampersand_world "production").
Proof.
  split.
  - destruct (proj1 (environment_is_displayed false sample_world) "staging" eq_refl)
      as [Hi Hh].
    split; [exact Hi | apply Hh; reflexivity].
  - destruct (proj2 (environment_is_displayed false ampersand_world) eq_refl) as [Hi Hh].
    split; [exact Hi | apply Hh; reflexivity].
Defined.

(** C8, as stated, fails for the home page: with PORT=8080 the server binds
    port 8080, but when ENVIRONMENT (or the host name, or PORT itself) holds
    a byte that is not UTF-8, GET / is answered with the 500 of the fault
    handler and shows no port. *)
Lemma garbled_page_shows_no_port :
  environ garbled_world !! "PORT" = Some "8080" /\
  (exists out, main (environ garbled_world) = AppRun out "0.0.0.0" 8080 false) /\
  status_code (run_wsgi (app false) garbled_world (GET "/")) = 500 /\
  (forall html, data (run_wsgi (app false) garbled_world (GET "/")) <> Html html).
Proof.
  split; [reflexivity|]. split; [eexists; reflexivity|].
  rewrite (GET_home_fault false garbled_world) by reflexivity.
  split; [reflexivity | discriminate].
Qed.

(** C8, amended. The start-up block calls [app.run] on all interfaces
    ("0.0.0.0") with the port that PORT denotes as an integer: 5000 when PORT
    is not set, n when PORT is the decimal form of a port number n, and
    generally the number that [int] reads from it. For every value of PORT
    the home page shows that value in its Port row, provided that this
    value, the host name and the value of ENVIRONMENT are well-formed
    UTF-8. *)
Theorem port_is_bound_and_displayed (env : gmap string string) :
  (env !! "PORT" = None -> exists out flag, main env = AppRun out "0.0.0.0" 5000 flag) /\
  (forall n, 0 <= n <= 65535 -> env !! "PORT" = Some (pretty n) ->
     exists out flag, main env = AppRun out "0.0.0.0" n flag) /\
  (forall s n, env !! "PORT" = Some s -> python_int s = IntValue n ->
     exists out flag, main env = AppRun out "0.0.0.0" n flag) /\
  (forall d w s, environ w = env -> env !! "PORT" = Some s -> text_ok w = true ->
     exists html,
       run_wsgi (app d) w (GET "/") =
         {| status_code := 200; mimetype := "text/html"; data := Html html |} /\
       page_displays "Port:" s html).
Proof.
  split; [|split; [|split]].
  - intros Hp. eexists _, _. apply main_port. now rewrite Hp.
  - intros n Hn Hp. eexists _, _. apply main_port. rewrite Hp.
    apply (python_int_pretty n 5); [|unfold max_str_digits; lia].
    change (10 ^ Z.of_nat 5) with 100000. lia.
  - intros s n Hp Hn. eexists _, _. apply main_port. now rewrite Hp.
  - intros d w s <- Hp Hok. eexists. split; [now apply GET_home|].
    unfold getenv at 1. rewrite Hp. apply page_displays_port.
Qed.

Lemma port_is_bound_and_displayed_witness :
  (exists out flag, main ∅ = AppRun out "0.0.0.0" 5000 flag) /\
  (exists out flag, main {[ "PORT" := pretty 443 ]} = AppRun out "0.0.0.0" 443 flag) /\
  (exists out flag, main {[ "PORT" := " +80_80 " ]} = AppRun out "0.0.0.0" 8080 flag) /\
  (exists html,
     run_wsgi (app false) sample_world (GET "/") =
       {| status_code := 200; mimetype := "text/html"; data := Html html |} /\
     page_displays "Port:" "8080" html).
Proof.
  split; [|split; [|split]].
  - apply (proj1 (port_is_bound_and_displayed ∅)). reflexivity.
  - apply (proj1 (proj2 (port_is_bound_and_displayed {[ "PORT" := pretty 443 ]})) 443);
      [lia | reflexivity].
  - apply (proj1 (proj2 (proj2 (port_is_bound_and_displayed {[ "PORT" := " +80_80 " ]})))
             " +80_80 " 8080); reflexivity.
  - apply (proj2 (proj2 (proj2 (port_is_bound_and_displayed (environ sample_world))))
             false sample_world "8080"); reflexivity.
Defined.

(** C9. The debug flag that the start-up block gives to [app.run] is true if
    and only if DEBUG is set to a value that, lowercased, is "true"; when
    DEBUG is not set it is false. *)
Theorem debug_flag_iff_true (env : gmap string string) (out : list string)
    (host : string) (port : Z) (flag : bool) :
  main env = AppRun out host port flag ->
  (flag = true <-> exists v, env !! "DEBUG" = Some v /\ lower v = "true") /\
  (env !! "DEBUG" = None -> flag = false).
Proof.
  intros ->%main_flag. unfold getenv. rewrite String.eqb_eq.
  destruct (env !! "DEBUG") as [v|]; cbn [default]; split.
  - split; [intros H; now exists v | intros (v' & [= <-] & H); exact H].
  - discriminate.
  - split; [discriminate | intros (v' & [=] & _)].
  - intros _. reflexivity.
Qed.

Lemma debug_flag_iff_true_witness :
  (true = true <->
   exists v, ({[ "DEBUG" := "True" ]} : gmap string string) !! "DEBUG" = Some v /\
             lower v = "true") /\
  (({[ "DEBUG" := "True" ]} : gmap string string) !! "DEBUG" = None -> true = false).
Proof.
  apply (debug_flag_iff_true {[ "DEBUG" := "True" ]}
           [ "Starting HNG13 DevOps Application..."; "Running on port 5000";
             "Debug mode: True" ] "0.0.0.0" 5000 true).
  reflexivity.
Defined.

(** C10. Two executions of the GET /api/status handler give the same
    response, whatever the environment variables, host names and clock
    readings of the two are. *)
Theorem status_ignores_its_inputs (d1 d2 : bool) (w1 w2 : World) :
  run_wsgi (app d1) w1 (GET "/api/status") = run_wsgi (app d2) w2 (GET "/api/status").
Proof. now rewrite !GET_status. Qed.

(** * Further properties of the application *)

(** ** Every answer of the application *)

Lemma match_request_Matched (rules : list rule) (m p : string) (r : rule) (arg : string) :
  match_request rules m p = Matched r arg ->
  find_rule rules m (path_part p) = Some (r, arg).
Proof.
  unfold match_request, match_rules.
  destruct (find_rule rules m (path_part p)) as [[r' arg']|]; [now intros [= <- <-]|].
  destruct (slash_required rules m (path_part p)); [discriminate|].
  destruct (find_rule rules m (merge_slashes (path_part p))) as [[r' arg']|]; [discriminate|].
  destruct (slash_required rules m (merge_slashes (path_part p))); [discriminate|].
  destruct (path_matches rules (path_part p) || path_matches rules (merge_slashes (path_part p)));
    discriminate.
Qed.

(** What the handler of a rule of the application gives. *)
Lemma dispatch_routes (r : rule) (w : World) (arg : string) :
  r ∈ routes ->
  (exists resp, full_dispatch_request r w arg = Returned resp /\
     ((exists filename, static_folder w filename = Some resp) \/
      (exists html,
         home w = Returned (Str html) /\
         resp = {| status_code := 200; mimetype := "text/html"; data := Html html |}) \/
      health w = Returned (Object resp) \/
      info w = Returned (Object resp) \/ status w = Returned (Object resp))) \/
  full_dispatch_request r w arg = Raised (HTTPException 404) \/
  (full_dispatch_request r w arg = Raised (Unhandled "UnicodeEncodeError") /\
   r = route "/" "home" home /\ text_ok w = false).
Proof.
  intros Hr%list_elem_of_In. unfold routes in Hr. cbn [In] in Hr.
  destruct Hr as [<- | [<- | [<- | [<- | [<- | []]]]]];
    unfold full_dispatch_request; cbn [view_func static_rule route].
  - unfold send_static_file. destruct (static_folder w arg) as [resp|] eqn:Es.
    + left. eexists. split; [reflexivity|]. left. now exists arg.
    + right. now left.
  - rewrite home_returns. unfold make_response. rewrite is_utf8_page.
    destruct (text_ok w) eqn:Hok.
    + left. eexists. split; [reflexivity|]. right. left. eexists. split; reflexivity.
    + right. right. repeat split.
  - left. eexists. split; [reflexivity|]. do 2 right. now left.
  - left. eexists. split; [reflexivity|]. do 3 right. now left.
  - left. eexists. split; [reflexivity|]. do 4 right. reflexivity.
Qed.

Lemma exact_match (q p arg : string) :
  match_pattern (Exact q) p = Some arg -> p = q.
Proof.
  cbn [match_pattern]. destruct (String.eqb_spec q p); [congruence | discriminate].
Qed.

Lemma default_methods_cases (m : string) :
  m ∈ default_methods -> m = "GET" \/ m = "HEAD" \/ m = "OPTIONS".
Proof.
  unfold default_methods. rewrite !elem_of_cons, elem_of_nil. tauto.
Qed.

(** The only fault of a handler of the application: the home page, asked for
    with GET or HEAD, when one of its values is not UTF-8. *)
Lemma handler_fault_iff (w : World) (req : request) (error : string) :
  handler_fault routes w req error <->
  error = "UnicodeEncodeError" /\ text_ok w = false /\
  path_part (path req) = "/" /\
  (upper (method req) = "GET" \/ upper (method req) = "HEAD").
Proof.
  split.
  - intros (r & arg & Hm & Hopt & Hraise).
    apply match_request_Matched, find_rule_Some in Hm as (Hin & Hmeth & Hpat).
    rewrite (routes_methods r Hin) in Hmeth.
    destruct (dispatch_routes r w arg Hin) as [(resp & E & _) | [E | (E & -> & Hbad)]];
      try congruence.
    rewrite E in Hraise. injection Hraise as <-.
    split; [reflexivity|]. split; [exact Hbad|].
    split; [now apply exact_match in Hpat|].
    destruct (default_methods_cases _ Hmeth) as [H | [H | H]]; [now left | now right | congruence].
  - intros (-> & Hbad & Hp & Hm).
    exists (route "/" "home" home), EmptyString. split; [|split].
    + unfold match_request. rewrite Hp. destruct Hm as [-> | ->]; reflexivity.
    + destruct Hm as [-> | ->]; discriminate.
    + unfold full_dispatch_request. cbn [view_func route]. rewrite home_returns.
      unfold make_response. now rewrite is_utf8_page, Hbad.
Qed.

(** Every request is answered in one of two ways: with the 500 of a fault,
    or with a regular response. *)
Lemma run_wsgi_cases (d : bool) (w : World) (req : request) :
  (handler_fault routes w req "UnicodeEncodeError" /\
   run_wsgi (app d) w req =
     if d then debugger_response "UnicodeEncodeError"
     else internal_error (HTTPException 500)) \/
  (~ (exists error, handler_fault routes w req error) /\
   regular_response w (run_wsgi (app d) w req)).
Proof.
  unfold run_wsgi, served_app, wsgi_app, regular_response, app, application.
  cbn [url_map debug].
  destruct (match_request routes (upper (method req)) (path req)) as [r arg|loc| |] eqn:E.
  - pose proof E as E'.
    apply match_request_Matched, find_rule_Some in E' as (Hin & _ & _).
    destruct (String.eqb_spec (upper (method req)) "OPTIONS") as [Hopt | Hopt].
    { right. split; [intros (error & r' & arg' & _ & H & _); contradiction|].
      destruct d; do 2 right; now left. }
    destruct (dispatch_routes r w arg Hin) as [(resp & Ed & H) | [Ed | (Ed & _ & _)]].
    + right. split.
      { intros (error & r' & arg' & Hm & _ & Hr). rewrite E in Hm.
        injection Hm as <- <-. congruence. }
      rewrite Ed. destruct d; do 4 right; exact H.
    + right. split.
      { intros (error & r' & arg' & Hm & _ & Hr). rewrite E in Hm.
        injection Hm as <- <-. congruence. }
      rewrite Ed. destruct d; now left.
    + left. split; [now exists r, arg|]. rewrite Ed. now destruct d.
  - right. split; [intros (error & r' & arg' & Hm & _); congruence|].
    destruct d; do 3 right; left; now eexists.
  - right. split; [intros (error & r' & arg' & Hm & _); congruence|].
    destruct d; right; now left.
  - right. split; [intros (error & r' & arg' & Hm & _); congruence|].
    destruct d; now left.
Qed.

Lemma regular_status (w : World) (resp : response) :
  (forall filename resp, static_folder w filename = Some resp -> status_code resp = 200) ->
  regular_response w resp ->
  In (status_code resp) [200; 308; 404; 405].
Proof.
  intros Hs [-> | [-> | [-> | [[loc ->] | [[f Hf] | [(html & _ & ->) | [H | [H | H]]]]]]]];
    try (cbn; tauto).
  - rewrite (Hs f _ Hf). cbn. tauto.
  - injection H as <-. cbn. tauto.
  - injection H as <-. cbn. tauto.
  - injection H as <-. cbn. tauto.
Qed.

(** X10. On every path that is a route, a method other than GET, HEAD and
    OPTIONS, in whatever letter case it is written, is answered with
    HTTP 405 and the framework's own error page, not with one of the JSON
    bodies: no handler is registered for 405. *)
Theorem other_methods_not_allowed (d : bool) (w : World) (req : request) :
  defined_route (path_part (path req)) = true ->
  upper (method req) ∉ default_methods ->
  run_wsgi (app d) w req =
    {| status_code := 405; mimetype := "text/html"; data := ErrorPage 405 |}.
Proof.
  intros Hd Hm. apply run_wsgi_returned. unfold wsgi_app, app, application.
  cbn [url_map]. now rewrite (match_request_not_allowed _ _ Hm Hd).
Qed.

Lemma other_methods_not_allowed_witness :
  run_wsgi (app false) sample_world {| method := "post"; path := "/api/status" |} =
    {| status_code := 405; mimetype := "text/html"; data := ErrorPage 405 |}.
Proof.
  apply (other_methods_not_allowed false sample_world
           {| method := "post"; path := "/api/status" |}).
  - reflexivity.
  - unfold default_methods. cbn [method upper]. rewrite !elem_of_cons, elem_of_nil.
    intros [H | [H | [H | []]]]; discriminate.
Defined.

(** X13. When the files of the static folder are served with status 200,
    every request is answered with 200, 308, 404, 405 or 500, and with 500
    in one case only: the home page, asked for with GET or HEAD, when the
    host name, PORT or ENVIRONMENT is not well-formed UTF-8. *)
Theorem only_the_home_page_answers_500 (d : bool) (w : World) (req : request) :
  (forall filename resp, static_folder w filename = Some resp -> status_code resp = 200) ->
  In (status_code (run_wsgi (app d) w req)) [200; 308; 404; 405; 500] /\
  (status_code (run_wsgi (app d) w req) = 500 <->
   text_ok w = false /\ path_part (path req) = "/" /\
   (upper (method req) = "GET" \/ upper (method req) = "HEAD")).
Proof.
  intros Hs. destruct (run_wsgi_cases d w req) as [[Hf ->] | [Hnone Hreg]].
  - apply handler_fault_iff in Hf as (_ & Hf).
    split; [destruct d; cbn; tauto|]. split; [intros _; exact Hf | now destruct d].
  - pose proof (regular_status w _ Hs Hreg) as Hin. split.
    + cbn in Hin |- *. tauto.
    + split.
      * intros H500. rewrite H500 in Hin. cbn in Hin.
        destruct Hin as [H | [H | [H | [H | []]]]]; discriminate H.
      * intros Hf. destruct Hnone. exists "UnicodeEncodeError".
        apply handler_fault_iff. now split.
Qed.

Lemma only_the_home_page_answers_500_witness :
  status_code (run_wsgi (app true) garbled_world {| method := "head"; path := "//" |}) = 500.
Proof.
  apply (proj2 (only_the_home_page_answers_500 true garbled_world
                  {| method := "head"; path := "//" |}
                  ltac:(intros filename resp; cbn [static_folder garbled_world]; discriminate))).
  split; [reflexivity|]. split; [reflexivity|]. right. reflexivity.
Defined.

(** X14. Every JSON body that the application returns has the media type
    application/json and a "status" field: the number of the HTTP status for
    the error bodies, a string for the bodies sent with HTTP 200. *)
Theorem json_bodies_carry_status (d : bool) (w : World) (req : request)
    (body : gmap string json) :
  (forall filename resp, static_folder w filename = Some resp ->
     exists content, data resp = File content) ->
  data (run_wsgi (app d) w req) = Json body ->
  mimetype (run_wsgi (app d) w req) = "application/json" /\
  (body !! "status" = Some (JInt (status_code (run_wsgi (app d) w req))) \/
   status_code (run_wsgi (app d) w req) = 200 /\
   exists s, body !! "status" = Some (JStr s)).
Proof.
  intros Hs.
  destruct (run_wsgi_cases d w req) as
    [[_ ->] | [_ [-> | [-> | [-> | [[loc ->] | [[f Hf] | [(html & _ & ->) | [H | [H | H]]]]]]]]]].
  - destruct d; [discriminate|].
    intros [= <-]. split; [reflexivity|]. left. dict_lookup.
  - intros [= <-]. split; [reflexivity|]. left. dict_lookup.
  - discriminate.
  - discriminate.
  - discriminate.
  - destruct (Hs f _ Hf) as [c ->]. discriminate.
  - discriminate.
  - injection H as <-. intros [= <-]. split; [reflexivity|]. right.
    split; [reflexivity|]. eexists. dict_lookup.
  - injection H as <-. intros [= <-]. split; [reflexivity|]. right.
    split; [reflexivity|]. eexists. dict_lookup.
  - injection H as <-. intros [= <-]. split; [reflexivity|]. right.
    split; [reflexivity|]. eexists. dict_lookup.
Qed.

Lemma json_bodies_carry_status_witness :
  mimetype (run_wsgi (app false) sample_world (GET "/api/health")) = "application/json" /\
  (dict [("status", JStr "healthy");
         ("timestamp", JStr (isoformat (now sample_world)));
         ("service", JStr "hng13-devops-stage1");
         ("version", JStr "1.0.0")] !! "status" =
     Some (JInt (status_code (run_wsgi (app false) sample_world (GET "/api/health")))) \/
   status_code (run_wsgi (app false) sample_world (GET "/api/health")) = 200 /\
   exists s, dict [("status", JStr "healthy");
                   ("timestamp", JStr (isoformat (now sample_world)));
                   ("service", JStr "hng13-devops-stage1");
                   ("version", JStr "1.0.0")] !! "status" = Some (JStr s)).
Proof.
  apply (json_bodies_carry_status false sample_world (GET "/api/health")).
  - intros filename resp. cbn [static_folder sample_world]. discriminate.
  - reflexivity.
Defined.

Lemma strip_prefix_app (p r : string) : strip_prefix p (p +:+ r) = Some r.
Proof.
  induction p as [|a p IH]; cbn [strip_prefix String.append]; [reflexivity|].
  now rewrite Ascii.eqb_refl.
Qed.

Lemma match_static (c : ascii) (rest : string) :
  c <> "/"%char ->
  all_chars (fun c' => negb (Ascii.eqb c' (chr 10))) rest = true ->
  match_request routes "GET" ("/static/" +:+ String c rest) =
    Matched static_rule (String c rest).
Proof.
  intros Hc Hrest. unfold match_request.
  change (path_part ("/static/" +:+ String c rest)) with ("/static/" +:+ String c rest).
  unfold match_rules, routes. cbn [find_rule rule_pattern static_rule match_pattern].
  rewrite strip_prefix_app.
  destruct (Ascii.eqb_spec c "/"); [contradiction|]. now rewrite Hrest.
Qed.

(** X11. A GET under /static/ for a name without a line feed after its
    first character is answered with the file of that name in the static
    folder; when there is no such file, the answer is the one an unmatched
    path gets, the JSON 404. *)
Theorem static_file_or_not_found (d : bool) (w : World) (c : ascii) (rest : string) :
  c <> "/"%char ->
  all_chars (fun c' => negb (Ascii.eqb c' (chr 10))) rest = true ->
  run_wsgi (app d) w (GET ("/static/" +:+ String c rest)) =
    match static_folder w (String c rest) with
    | Some resp => resp
    | None => run_wsgi (app d) w (GET "/nonexistent")
    end.
Proof.
  intros Hc Hrest.
  assert (run_wsgi (app d) w (GET "/nonexistent") = not_found (HTTPException 404)) as ->.
  { now apply run_wsgi_returned. }
  apply run_wsgi_returned.
  rewrite (wsgi_app_matched (app d) w (GET ("/static/" +:+ String c rest)) static_rule
             (String c rest) (match_static c rest Hc Hrest)) by discriminate.
  unfold full_dispatch_request. cbn [view_func static_rule]. unfold send_static_file.
  now destruct (static_folder w (String c rest)).
Qed.

Lemma static_file_or_not_found_witness :
  run_wsgi (app false) sample_world (GET ("/static/" +:+ "logo.png")) =
    match static_folder sample_world "logo.png" with
    | Some resp => resp
    | None => run_wsgi (app false) sample_world (GET "/nonexistent")
    end.
Proof.
  apply (static_file_or_not_found false sample_world "l" "ogo.png");
    [discriminate | reflexivity].
Defined.

(** The path converter of the static rule does not match a line feed after
    the first character: such a name is not looked up in the static folder,
    the path is not found. *)
Example static_name_with_line_feed :
  static_folder static_world ("a" +:+ nl +:+ "b") =
    Some {| status_code := 200; mimetype := "application/octet-stream";
            data := File ("a" +:+ nl +:+ "b") |} /\
  run_wsgi (app false) static_world (GET ("/static/a" +:+ nl +:+ "b")) =
    not_found (HTTPException 404) /\
  run_wsgi (app false) static_world (GET "/static/logo.png") =
    {| status_code := 200; mimetype := "application/octet-stream";
       data := File "logo.png" |}.
Proof. repeat split. Qed.

(** X9. Handlers are registered for the codes 404 and 500 and for no other;
    each answers with its own code as HTTP status and a JSON body with exactly
    the keys error, message and status, whose status is that code as a
    number. *)
Theorem error_handlers_envelope (code : Z) :
  (is_Some (error_handlers code) <-> code = 404 \/ code = 500) /\
  (forall handler error, error_handlers code = Some handler ->
     exists body name message,
       handler error =
         {| status_code := code; mimetype := "application/json"; data := Json body |} /\
       dom body = {[ "error"; "message"; "status" ]} /\
       body !! "error" = Some (JStr name) /\
       body !! "message" = Some (JStr message) /\
       body !! "status" = Some (JInt code)).
Proof.
  unfold error_handlers.
  destruct (Z.eqb_spec code 404) as [-> | H404]; [|destruct (Z.eqb_spec code 500) as [-> | H500]].
  - split; [split; [now left | now eexists]|].
    intros handler error [= <-]. eexists _, _, _. split; [reflexivity|].
    split; [|repeat split; dict_lookup].
    unfold dict. cbn [foldl fst snd]. rewrite !dom_insert_L, dom_empty_L. set_solver.
  - split; [split; [now right | now eexists]|].
    intros handler error [= <-]. eexists _, _, _. split; [reflexivity|].
    split; [|repeat split; dict_lookup].
    unfold dict. cbn [foldl fst snd]. rewrite !dom_insert_L, dom_empty_L. set_solver.
  - split; [|discriminate]. split; [intros [? [=]] | lia].
Qed.

Lemma error_handlers_envelope_witness :
  exists body name message,
    internal_error (Unhandled "ZeroDivisionError") =
      {| status_code := 500; mimetype := "application/json"; data := Json body |} /\
    dom body = {[ "error"; "message"; "status" ]} /\
    body !! "error" = Some (JStr name) /\
    body !! "message" = Some (JStr message) /\
    body !! "status" = Some (JInt 500).
Proof.
  apply (proj2 (error_handlers_envelope 500) internal_error (Unhandled "ZeroDivisionError")).
  reflexivity.
Defined.

(** ** What the router does with the method and the path *)







(** ** The JSON endpoints *)

(** X3. For one clock reading, /api/info and /api/health carry the same
    timestamp, and parsing it as ISO-8601 gives the clock reading back. *)
Theorem info_and_health_timestamps (d : bool) (w : World) :
  datetime_ok (now w) = true ->
  exists info_body health_body timestamp,
    data (run_wsgi (app d) w (GET "/api/info")) = Json info_body /\
    data (run_wsgi (app d) w (GET "/api/health")) = Json health_body /\
    info_body !! "timestamp" = Some (JStr timestamp) /\
    health_body !! "timestamp" = Some (JStr timestamp) /\
    fromisoformat timestamp = Some (now w).
Proof.
  intros Hok. eexists _, _, (isoformat (now w)). rewrite GET_info, GET_health.
  split; [reflexivity|]. split; [reflexivity|].
  split; [dict_lookup|]. split; [dict_lookup|]. now apply fromisoformat_isoformat.
Qed.

Lemma info_and_health_timestamps_witness :
  exists info_body health_body timestamp,
    data (run_wsgi (app false) sample_world (GET "/api/info")) = Json info_body /\
    data (run_wsgi (app false) sample_world (GET "/api/health")) = Json health_body /\
    info_body !! "timestamp" = Some (JStr timestamp) /\
    health_body !! "timestamp" = Some (JStr timestamp) /\
    fromisoformat timestamp = Some (now sample_world).
Proof. apply (info_and_health_timestamps false sample_world). reflexivity. Defined.

(** X1. The body of /api/health has exactly the keys status, timestamp, service
    and version. *)
Theorem health_keys (d : bool) (w : World) :
  exists body,
    data (run_wsgi (app d) w (GET "/api/health")) = Json body /\
    dom body = {[ "status"; "timestamp"; "service"; "version" ]}.
Proof.
  eexists. rewrite GET_health. split; [reflexivity|].
  unfold dict. cbn [foldl fst snd]. rewrite !dom_insert_L, dom_empty_L. set_solver.
Qed.

Lemma length_zpad (k : nat) (n : Z) : String.length (zpad k n) = k.
Proof.
  revert n. induction k as [|k IH]; intros n; [reflexivity|].
  rewrite zpad_S. cbn [String.length]. now rewrite IH.
Qed.

(** X2. The timestamp of /api/health has 19 characters when the clock reading
    has no microseconds and 26 otherwise: the fraction is left out when it is
    zero. *)
Theorem health_timestamp_length (d : bool) (w : World) :
  exists body timestamp,
    data (run_wsgi (app d) w (GET "/api/health")) = Json body /\
    body !! "timestamp" = Some (JStr timestamp) /\
    String.length timestamp = if microsecond (now w) =? 0 then 19%nat else 26%nat.
Proof.
  eexists _, _. rewrite GET_health. split; [reflexivity|]. split; [dict_lookup|].
  unfold isoformat. rewrite !length_append, !length_zpad.
  destruct (microsecond (now w) =? 0).
  - reflexivity.
  - rewrite length_append, length_zpad. reflexivity.
Qed.

(** ** Rows and markup of the home page *)

Lemma segment_hostname_row :
  (exists pre, segment 0 = pre +:+ row_open "Hostname:") /\
  (exists post, segment 2 = "</span>" +:+ post).
Proof.
  split.
  - exists (String.substring 0
              (String.length (segment 0) - String.length (row_open "Hostname:"))
              (segment 0)).
    vm_compute. reflexivity.
  - apply starts_with_spec. vm_compute. reflexivity.
Qed.

Lemma segment_time_row :
  (exists pre, segment 2 = pre +:+ row_open "Server Time:") /\
  (exists post, segment 4 = "</span>" +:+ post).
Proof.
  split.
  - exists (String.substring 0
              (String.length (segment 2) - String.length (row_open "Server Time:"))
              (segment 2)).
    vm_compute. reflexivity.
  - apply starts_with_spec. vm_compute. reflexivity.
Qed.

Lemma page_displays_hostname (h t p e : string) :
  page_displays "Hostname:" h (home_html h t p e).
Proof.
  destruct segment_hostname_row as [[pre Hpre] [post Hpost]].
  exists pre, (escape h),
         (post +:+ escape t +:+ segment 4 +:+ escape p +:+ segment 6 +:+ escape e +:+ segment 8).
  split; [|split; [apply escape_is_text | apply shown_text_escape]].
  unfold home_html. rewrite Hpre, Hpost, !append_assoc. reflexivity.
Qed.

Lemma page_displays_time (h t p e : string) :
  page_displays "Server Time:" t (home_html h t p e).
Proof.
  destruct segment_time_row as [[pre Hpre] [post Hpost]].
  exists (segment 0 +:+ escape h +:+ pre), (escape t),
         (post +:+ escape p +:+ segment 6 +:+ escape e +:+ segment 8).
  split; [|split; [apply escape_is_text | apply shown_text_escape]].
  unfold home_html. rewrite Hpre, Hpost, !append_assoc. reflexivity.
Qed.

(** X5. When the host name and the values of PORT and ENVIRONMENT are
    well-formed UTF-8, the home page shows the host name in its Hostname row,
    whatever characters it holds, and the time in its Server Time row, as
    the clock prints it: from the year 1000 on with the four digits of the
    year, the two of the month and of the day, and the time of day. *)
Theorem home_displays_hostname_and_time (d : bool) (w : World) :
  text_ok w = true ->
  exists html,
    data (run_wsgi (app d) w (GET "/")) = Html html /\
    page_displays "Hostname:" (gethostname w) html /\
    page_displays "Server Time:" (strftime_Ymd_HMS (now w)) html /\
    (wall_clock_ok (now w) = true ->
     strftime_Ymd_HMS (now w) =
       zpad 4 (year (now w)) +:+ "-" +:+ zpad 2 (month (now w)) +:+ "-" +:+
       zpad 2 (day (now w)) +:+ " " +:+ zpad 2 (hour (now w)) +:+ ":" +:+
       zpad 2 (minute (now w)) +:+ ":" +:+ zpad 2 (second (now w))).
Proof.
  intros Hok. eexists. rewrite GET_home by exact Hok. split; [reflexivity|].
  split; [apply page_displays_hostname|].
  split; [apply page_displays_time | apply strftime_fixed_width].
Qed.

Lemma home_displays_hostname_and_time_witness :
  exists html,
    data (run_wsgi (app false) ampersand_world (GET "/")) = Html html /\
    page_displays "Hostname:" "a&b" html /\
    page_displays "Server Time:" (strftime_Ymd_HMS (now ampersand_world)) html /\
    (wall_clock_ok (now ampersand_world) = true ->
     strftime_Ymd_HMS (now ampersand_world) =
       zpad 4 2025 +:+ "-" +:+ zpad 2 10 +:+ "-" +:+ zpad 2 17 +:+ " " +:+
       zpad 2 9 +:+ ":" +:+ zpad 2 5 +:+ ":" +:+ zpad 2 42).
Proof. apply (home_displays_hostname_and_time false ampersand_world). reflexivity. Defined.

Lemma count_char_app (c : ascii) (a b : string) :
  count_char c (a +:+ b) = (count_char c a + count_char c b)%nat.
Proof.
  induction a as [|x a IH]; cbn [String.append count_char]; [reflexivity|].
  rewrite IH. lia.
Qed.

Lemma count_char_escape (c : ascii) (v : string) :
  is_delimiter c = true -> count_char c (escape v) = 0%nat.
Proof.
  intros Hc. induction v as [|x v IH]; [reflexivity|].
  cbn [escape]. rewrite count_char_app, IH, Nat.add_0_r.
  destruct (is_markup x) eqn:Hx.
  - revert Hx Hc. unfold is_markup, is_delimiter. rewrite !orb_true_iff, !Ascii.eqb_eq.
    intros [[[[-> | ->] | ->] | ->] | ->] [[[-> | ->] | ->] | ->]; reflexivity.
  - rewrite escape_char_safe by exact Hx. cbn [count_char].
    destruct (Ascii.eqb_spec c x) as [-> | _]; [|reflexivity].
    revert Hx Hc. unfold is_markup, is_delimiter.
    destruct (Ascii.eqb x "&"), (Ascii.eqb x "<"), (Ascii.eqb x ">"), (Ascii.eqb x "'"),
      (Ascii.eqb x (chr 34)); cbn; congruence.
Qed.

Lemma count_char_template (c : ascii) :
  is_delimiter c = true ->
  (count_char c (segment 0) + count_char c (segment 2) + count_char c (segment 4) +
   count_char c (segment 6) + count_char c (segment 8))%nat = count_char c HTML_TEMPLATE.
Proof.
  unfold is_delimiter. rewrite !orb_true_iff, !Ascii.eqb_eq.
  intros [[[-> | ->] | ->] | ->]; vm_compute; reflexivity.
Qed.

(** X7. When the host name and the values of PORT and ENVIRONMENT are
    well-formed UTF-8, the home page has as many of each markup delimiter
    (the angle brackets and the two quotes) as the template: no host name,
    port or environment value adds or closes a tag or an attribute. *)
Theorem home_keeps_the_markup_of_the_template (d : bool) (w : World) (c : ascii) :
  text_ok w = true ->
  is_delimiter c = true ->
  exists html,
    data (run_wsgi (app d) w (GET "/")) = Html html /\
    count_char c html = count_char c HTML_TEMPLATE.
Proof.
  intros Hok Hc. eexists. rewrite GET_home by exact Hok. split; [reflexivity|].
  unfold home_html. rewrite !count_char_app, !(count_char_escape c) by exact Hc.
  rewrite <- (count_char_template c Hc). lia.
Qed.

Lemma home_keeps_the_markup_of_the_template_witness :
  exists html,
    data (run_wsgi (app false) ampersand_world (GET "/")) = Html html /\
    count_char "<" html = count_char "<" HTML_TEMPLATE.
Proof.
  apply (home_keeps_the_markup_of_the_template false ampersand_world "<"); reflexivity.
Defined.

(** X8. The home page depends on the host name, the clock reading down to the
    second, PORT and ENVIRONMENT only: two environments that agree on these,
    the host name and the two values being well-formed UTF-8, get the same
    page, whatever their microseconds, other variables, interpreter and
    debug flag are. *)
Theorem home_depends_on_four_readings (d1 d2 : bool) (w1 w2 : World) :
  text_ok w1 = true ->
  gethostname w1 = gethostname w2 ->
  year (now w1) = year (now w2) -> month (now w1) = month (now w2) ->
  day (now w1) = day (now w2) -> hour (now w1) = hour (now w2) ->
  minute (now w1) = minute (now w2) -> second (now w1) = second (now w2) ->
  environ w1 !! "PORT" = environ w2 !! "PORT" ->
  environ w1 !! "ENVIRONMENT" = environ w2 !! "ENVIRONMENT" ->
  run_wsgi (app d1) w1 (GET "/") = run_wsgi (app d2) w2 (GET "/").
Proof.
  intros Hok Hh Hy Hmo Hd Hho Hmi Hs Hp He.
  assert (text_ok w2 = true) as Hok2.
  { revert Hok. unfold text_ok, getenv. now rewrite Hh, Hp, He. }
  rewrite !GET_home by assumption.
  unfold strftime_Ymd_HMS, getenv. now rewrite Hh, Hy, Hmo, Hd, Hho, Hmi, Hs, Hp, He.
Qed.

Lemma home_depends_on_four_readings_witness :
  run_wsgi (app false) sample_world (GET "/") = run_wsgi (app true) later_world (GET "/").
Proof.
  apply (home_depends_on_four_readings false true sample_world later_world); reflexivity.
Defined.

(** X4. /api/info and the home page agree: when they are well-formed UTF-8,
    the host name, the port and the environment in the JSON body are the
    values shown in the Hostname, Port and Environment rows of the page. *)
Theorem info_and_home_agree (d : bool) (w : World) :
  text_ok w = true ->
  exists body html hostname port environment,
    data (run_wsgi (app d) w (GET "/api/info")) = Json body /\
    data (run_wsgi (app d) w (GET "/")) = Html html /\
    body !! "hostname" = Some (JStr hostname) /\
    page_displays "Hostname:" hostname html /\
    body !! "port" = Some (JStr port) /\
    page_displays "Port:" port html /\
    body !! "environment" = Some (JStr environment) /\
    page_displays "Environment:" environment html.
Proof.
  intros Hok. eexists _, _, _, _, _. rewrite GET_info, GET_home by exact Hok.
  split; [reflexivity|]. split; [reflexivity|].
  split; [dict_lookup|]. split; [apply page_displays_hostname|].
  split; [dict_lookup|]. split; [apply page_displays_port|].
  split; [dict_lookup|]. apply page_displays_environment.
Qed.

Lemma info_and_home_agree_witness :
  exists body html hostname port environment,
    data (run_wsgi (app false) sample_world (GET "/api/info")) = Json body /\
    data (run_wsgi (app false) sample_world (GET "/")) = Html html /\
    body !! "hostname" = Some (JStr hostname) /\
    page_displays "Hostname:" hostname html /\
    body !! "port" = Some (JStr port) /\
    page_displays "Port:" port html /\
    body !! "environment" = Some (JStr environment) /\
    page_displays "Environment:" environment html.
Proof. apply (info_and_home_agree false sample_world). reflexivity. Defined.

(** X6. For one clock reading from the year 1000 on, the Server Time of the
    home page is the timestamp of /api/health cut to the second: both parse
    to the same date and time of day. *)
Theorem home_time_is_the_health_timestamp (d : bool) (w : World) :
  text_ok w = true ->
  wall_clock_ok (now w) = true ->
  exists body html timestamp shown reading,
    data (run_wsgi (app d) w (GET "/api/health")) = Json body /\
    data (run_wsgi (app d) w (GET "/")) = Html html /\
    body !! "timestamp" = Some (JStr timestamp) /\
    page_displays "Server Time:" shown html /\
    fromisoformat timestamp = Some reading /\
    strptime_Ymd_HMS shown =
      Some {| year := year reading; month := month reading; day := day reading;
              hour := hour reading; minute := minute reading; second := second reading;
              microsecond := 0 |}.
Proof.
  intros Hok Hclock. pose proof Hclock as [Hdt _]%wall_clock_ok_spec.
  eexists _, _, _, _, _. rewrite GET_health, GET_home by exact Hok.
  split; [reflexivity|]. split; [reflexivity|].
  split; [dict_lookup|]. split; [apply page_displays_time|].
  split; [now apply fromisoformat_isoformat | now apply strptime_strftime].
Qed.

Lemma home_time_is_the_health_timestamp_witness :
  exists body html timestamp shown reading,
    data (run_wsgi (app false) sample_world (GET "/api/health")) = Json body /\
    data (run_wsgi (app false) sample_world (GET "/")) = Html html /\
    body !! "timestamp" = Some (JStr timestamp) /\
    page_displays "Server Time:" shown html /\
    fromisoformat timestamp = Some reading /\
    strptime_Ymd_HMS shown =
      Some {| year := year reading; month := month reading; day := day reading;
              hour := hour reading; minute := minute reading; second := second reading;
              microsecond := 0 |}.
Proof. apply (home_time_is_the_health_timestamp false sample_world); reflexivity. Defined.

(** ** The start-up block *)

(** X15. With PORT set to the decimal form of a port number from 0 to 65535,
    the start-up block calls [app.run] with that number on "0.0.0.0" and
    prints the same decimal form in its banner. *)
Theorem decimal_port_is_bound (env : gmap string string) (n : Z) :
  0 <= n <= 65535 ->
  env !! "PORT" = Some (pretty n) ->
  exists flag,
    main env =
      AppRun [ "Starting HNG13 DevOps Application...";
               "Running on port " +:+ pretty n;
               "Debug mode: " +:+ python_str_bool flag ]
             "0.0.0.0" n flag.
Proof.
  intros Hn Hp. eexists. apply main_port. rewrite Hp.
  apply (python_int_pretty n 5); [|unfold max_str_digits; lia].
  change (10 ^ Z.of_nat 5) with 100000. lia.
Qed.

Lemma decimal_port_is_bound_witness :
  exists flag,
    main {[ "PORT" := pretty 8080 ]} =
      AppRun [ "Starting HNG13 DevOps Application...";
               "Running on port " +:+ pretty 8080;
               "Debug mode: " +:+ python_str_bool flag ]
             "0.0.0.0" 8080 flag.
Proof.
  apply (decimal_port_is_bound {[ "PORT" := pretty 8080 ]} 8080); [lia | reflexivity].
Defined.

(** X16. A PORT that is set but empty or blank does not fall back to 5000: the
    start-up block ends with ValueError before [app.run]. *)
Theorem blank_port_stops_startup (env : gmap string string) (s : string) :
  env !! "PORT" = Some s -> all_chars is_space s = true ->
  main env = Died "ValueError".
Proof.
  intros Hp Hs. unfold main. rewrite Hp. now rewrite (python_int_blank s Hs).
Qed.

Lemma blank_port_stops_startup_witness : main {[ "PORT" := "" ]} = Died "ValueError".
Proof. apply (blank_port_stops_startup {[ "PORT" := "" ]} ""); reflexivity. Defined.

(** X17. The start-up block turns debug mode on exactly for the sixteen
    spellings of "true" in upper and lower case; values such as "1", "yes" or
    " true" leave it off. *)
Theorem debug_mode_spellings (env : gmap string string) (out : list string)
    (host : string) (port : Z) (flag : bool) :
  main env = AppRun out host port flag ->
  (flag = true <->
   exists a b c e,
     env !! "DEBUG" = Some (String a (String b (String c (String e "")))) /\
     (a = "t" \/ a = "T")%char /\ (b = "r" \/ b = "R")%char /\
     (c = "u" \/ c = "U")%char /\ (e = "e" \/ e = "E")%char).
Proof.
  intros ->%main_flag. unfold getenv. rewrite String.eqb_eq.
  destruct (env !! "DEBUG") as [v|]; cbn [default]; unfold id.
  - rewrite lower_true_spellings. split.
    + intros (a & b & c & e & -> & H). now exists a, b, c, e.
    + intros (a & b & c & e & [= ->] & H). now exists a, b, c, e.
  - split; [discriminate | intros (a & b & c & e & [=] & _)].
Qed.

Lemma debug_mode_spellings_witness :
  true = true <->
  exists a b c e,
    ({[ "DEBUG" := "TRUE" ]} : gmap string string) !! "DEBUG" =
      Some (String a (String b (String c (String e "")))) /\
    (a = "t" \/ a = "T")%char /\ (b = "r" \/ b = "R")%char /\
    (c = "u" \/ c = "U")%char /\ (e = "e" \/ e = "E")%char.
Proof.
  apply (debug_mode_spellings {[ "DEBUG" := "TRUE" ]}
           [ "Starting HNG13 DevOps Application..."; "Running on port 5000";
             "Debug mode: True" ] "0.0.0.0" 5000 true).
  reflexivity.
Defined.
